(** * papis: the crossref normalizer and the [explore] command chain

    A shallow embedding of [papis/crossref.py] and of the stages of
    [papis/commands/explore.py], with the properties of the record
    normalizer and of the pipeline proved on it.

    Layout:
    - [Py]       the Python values, exceptions and builtins the code relies on;
    - [Crossref] [papis/crossref.py];
    - [Explore]  [papis/commands/explore.py];
    - the properties, module by module. *)

From Stdlib Require Import String Ascii List ZArith Bool Lia Permutation.
Import ListNotations.
Local Open Scope string_scope.
Local Open Scope list_scope.

(* ===================================================================== *)
(** * Python values, exceptions and builtins *)
(* ===================================================================== *)

Module Py.

(** The exception classes (all below [Exception]) that the modelled code
    can meet.  [OtherError] carries the class name of any other exception,
    such as the network errors of the web services. *)
Inductive exn : Type :=
| AttributeError
| TypeError
| KeyError
| IndexError
| ValueError
| OtherError (cls : string).

(** A computation either returns or raises. *)
Inductive result (A : Type) : Type :=
| Ok (a : A)
| Raise (e : exn).
Arguments Ok {A} a.
Arguments Raise {A} e.

Definition bind {A B : Type} (m : result A) (k : A -> result B) : result B :=
  match m with
  | Ok a => k a
  | Raise e => Raise e
  end.

Notation "x <- m ;; k" := (bind m (fun x => k))
  (at level 61, m at next level, right associativity).

(** A list comprehension [[f(x) for x in l]]: elements are visited from the
    left and the first exception leaves the comprehension. *)
Fixpoint mapM {A B : Type} (f : A -> result B) (l : list A) : result (list B) :=
  match l with
  | [] => Ok []
  | x :: r => y <- f x ;; ys <- mapM f r ;; Ok (y :: ys)
  end.

(** The objects that a decoded JSON document is made of.  A [str] is a
    sequence of code points; the embedding keeps the code points below 256.
    A [dict] keeps its insertion order, its keys are strings.  Floats do not
    occur in the fields that the conversion table reads. *)
#[warnings="-register-all"]
Inductive value : Type :=
| VNone
| VBool (b : bool)
| VInt (z : Z)
| VStr (s : string)
| VList (l : list value)
| VDict (d : list (string * value)).

Definition pydict : Type := list (string * value).

(** ** Dictionaries *)

(** [d.get(k)] on the entries of a dictionary. *)
Fixpoint dict_get {V : Type} (d : list (string * V)) (k : string) : option V :=
  match d with
  | [] => None
  | (k', v) :: r => if String.eqb k' k then Some v else dict_get r k
  end.

(** [k in d.keys()] *)
Definition dict_mem {V : Type} (d : list (string * V)) (k : string) : bool :=
  match dict_get d k with
  | Some _ => true
  | None => false
  end.

(** [d[k] = v]: an existing key keeps its place, a new key goes last. *)
Fixpoint dict_set {V : Type} (d : list (string * V)) (k : string) (v : V)
  : list (string * V) :=
  match d with
  | [] => [(k, v)]
  | (k', v') :: r =>
      if String.eqb k' k then (k', v) :: r else (k', v') :: dict_set r k v
  end.

Definition dict_keys {V : Type} (d : list (string * V)) : list string :=
  map fst d.

(** Membership in a tuple or list of strings. *)
Definition str_mem (k : string) (l : list string) : bool :=
  existsb (String.eqb k) l.

(** A list of strings without repetition, decided. *)
Fixpoint distinct (l : list string) : bool :=
  match l with
  | [] => true
  | x :: r => negb (str_mem x r) && distinct r
  end.

(** ** Strings *)

(** Iterating over a [str] yields its characters as one-character strings. *)
Definition chars (s : string) : list string :=
  map (fun c => String c EmptyString) (list_ascii_of_string s).

(** [sep.join(l)] for a list of strings. *)
Fixpoint str_join (sep : string) (l : list string) : string :=
  match l with
  | [] => ""
  | x :: r =>
      match r with
      | [] => x
      | _ :: _ => (x ++ sep ++ str_join sep r)%string
      end
  end.

(** The characters that [\s] matches in a [str] pattern (Python 3:
    [str.isspace]), among the code points below 256: TAB..CR, FS..US,
    SPACE, NEL (133) and NBSP (160). *)
Definition is_space (c : ascii) : bool :=
  let n := nat_of_ascii c in
  ((9 <=? n) && (n <=? 13) || (28 <=? n) && (n <=? 32)
   || (n =? 133) || (n =? 160))%nat.

(** [re.sub(r'\s', '', s)]: every whitespace character is deleted. *)
Fixpoint re_sub_space (s : string) : string :=
  match s with
  | EmptyString => EmptyString
  | String c r =>
      if is_space c then re_sub_space r else String c (re_sub_space r)
  end.

Definition dash : ascii := "-"%char.

(** [re.sub(r"(-[^-])", r"-\1", p)]: the matches are found from the left and
    do not overlap; a match is a dash followed by one character that is not a
    dash, and it is replaced by a dash followed by the match itself. *)
Fixpoint re_sub_dash (p : string) : string :=
  match p with
  | EmptyString => EmptyString
  | String c r =>
      if Ascii.eqb c dash then
        match r with
        | EmptyString => String c EmptyString
        | String c' r' =>
            if Ascii.eqb c' dash then String c (re_sub_dash r)
            else String dash (String c (String c' (re_sub_dash r')))
        end
      else String c (re_sub_dash r)
  end.

(** The number of matches of [-[^-]] that [re.sub] finds in [p], counted
    as it scans: from the left, without overlap. *)
Fixpoint dash_matches (p : string) : nat :=
  match p with
  | EmptyString => 0
  | String c r =>
      if Ascii.eqb c dash then
        match r with
        | EmptyString => 0
        | String c' r' =>
            if Ascii.eqb c' dash then dash_matches r
            else S (dash_matches r')
        end
      else dash_matches r
  end.

(** The characters of a string that are no dashes. *)
Fixpoint without_dashes (p : string) : string :=
  match p with
  | EmptyString => EmptyString
  | String c r =>
      if Ascii.eqb c dash then without_dashes r
      else String c (without_dashes r)
  end.

(** [str.lower] on the code points below 256: A..Z and the Latin-1 capitals
    (192..222 but the multiplication sign 215) move up by 32. *)
Definition lower_char (c : ascii) : ascii :=
  let n := nat_of_ascii c in
  if ((65 <=? n) && (n <=? 90)
      || (192 <=? n) && (n <=? 222) && negb (n =? 215))%nat
  then ascii_of_nat (n + 32)
  else c.

Fixpoint str_lower (s : string) : string :=
  match s with
  | EmptyString => EmptyString
  | String c r => String (lower_char c) (str_lower r)
  end.

(** ** Builtin operations on objects *)

(** Truth value of an object ([if x], [if not x]). *)
Definition truthy (v : value) : bool :=
  match v with
  | VNone => false
  | VBool b => b
  | VInt z => negb (z =? 0)%Z
  | VStr s => negb (String.eqb s "")
  | VList l => match l with [] => false | _ :: _ => true end
  | VDict d => match d with [] => false | _ :: _ => true end
  end.

(** [for x in v]: a list gives its elements, a string its characters, a
    dictionary its keys; nothing else here is iterable. *)
Definition py_iter (v : value) : result (list value) :=
  match v with
  | VList l => Ok l
  | VStr s => Ok (map VStr (chars s))
  | VDict d => Ok (map VStr (dict_keys d))
  | VNone | VBool _ | VInt _ => Raise TypeError
  end.

(** [v[i]] for a literal index [i >= 0]: lists and strings are indexed (and
    raise [IndexError] out of range), a dictionary has no integer key, and
    the other objects are not subscriptable. *)
Definition py_getitem_int (v : value) (i : nat) : result value :=
  match v with
  | VList l =>
      match nth_error l i with
      | Some x => Ok x
      | None => Raise IndexError
      end
  | VStr s =>
      match nth_error (chars s) i with
      | Some c => Ok (VStr c)
      | None => Raise IndexError
      end
  | VDict _ => Raise KeyError
  | VNone | VBool _ | VInt _ => Raise TypeError
  end.

(** [v.get(k)]: only a dictionary has the method; a missing key gives
    [None]. *)
Definition py_get (v : value) (k : string) : result value :=
  match v with
  | VDict d =>
      match dict_get d k with
      | Some x => Ok x
      | None => Ok VNone
      end
  | _ => Raise AttributeError
  end.

(** [d[k]] on a dictionary. *)
Definition dict_getitem (d : pydict) (k : string) : result value :=
  match dict_get d k with
  | Some x => Ok x
  | None => Raise KeyError
  end.

(** [l[i]] on a list, with Python's negative indices. *)
Definition list_getitem {A : Type} (l : list A) (i : Z) : result A :=
  let n := Z.of_nat (length l) in
  let j := if (i <? 0)%Z then (n + i)%Z else i in
  if ((0 <=? j) && (j <? n))%Z then
    match nth_error l (Z.to_nat j) with
    | Some x => Ok x
    | None => Raise IndexError
    end
  else Raise IndexError.

End Py.

(* ===================================================================== *)
(** * papis/crossref.py *)
(* ===================================================================== *)

Module Crossref.
Import Py.

(** What [crossref.py] calls and does not define: the configuration, the
    document formatter, the DOI cleaner and the crossref client.  They are
    taken as they are used, as functions that return: an exception of the
    configuration or of a formatter, which [crossref_data_to_papis_data]
    would not catch, is outside this model. *)
Class Collaborators : Type := {
  (** [papis.config.get(name)] *)
  config_get : string -> string;
  (** [fmt.format(au=author)] *)
  str_format_au : string -> value -> string;
  (** [papis.utils.format_doc(fmt, doc)] *)
  format_doc : string -> pydict -> string;
  (** [papis.doi.get_clean_doi(doi)] *)
  get_clean_doi : string -> value;
  (** [habanero.Crossref().works] on the keyword arguments: the answer,
      or the exception of the client *)
  habanero_works : pydict -> result value;
  (** the order in which a [set] of strings is iterated; the language
      leaves it open *)
  set_iter : list string -> list string
}.

Definition type_converter : list (string * string) :=
  [ ("book", "book");
    ("book-chapter", "inbook");
    ("book-part", "inbook");
    ("book-section", "inbook");
    ("book-series", "incollection");
    ("book-set", "incollection");
    ("book-track", "inbook");
    ("dataset", "misc");
    ("dissertation", "phdthesis");
    ("edited-book", "book");
    ("journal-article", "article");
    ("journal-issue", "misc");
    ("journal-volume", "article");
    ("monograph", "monograph");
    ("other", "misc");
    ("peer-review", "article");
    ("posted-content", "misc");
    ("proceedings-article", "inproceedings");
    ("proceedings", "inproceedings");
    ("proceedings-series", "inproceedings");
    ("reference-book", "book");
    ("report", "report");
    ("report-series", "inproceedings");
    ("standard-series", "incollection");
    ("standard", "techreport") ].

(** One entry [{"key": ..., "action": ...}] of the table; both parts are
    optional. *)
Record rule : Type := {
  rule_key : option string;
  rule_action : option (value -> result value)
}.

(** A source key is bound to one such entry or to a list of them. *)
Inductive conv : Type :=
| One (r : rule)
| Many (rs : list rule).

(** [if isinstance(_conv_data_src, dict): _conv_data_src = [_conv_data_src]] *)
Definition rules_of (c : conv) : list rule :=
  match c with
  | One r => [r]
  | Many rs => rs
  end.

Definition table : Type := list (string * conv).

(** ** The actions of the table *)

(** [lambda authors: [{k: a.get(k) for k in ['given', 'family']}
                      for a in authors]] *)
Definition action_author (authors : value) : result value :=
  l <- py_iter authors ;;
  r <- mapM (fun a =>
               given <- py_get a "given" ;;
               family <- py_get a "family" ;;
               Ok (VDict [("given", given); ("family", family)])) l ;;
  Ok (VList r).

(** [lambda x: x[0]] *)
Definition action_container_title (x : value) : result value :=
  py_getitem_int x 0.

(** [lambda p: re.sub(r"(-[^-])", r"-\1", p)]; the pattern needs a string. *)
Definition action_page (p : value) : result value :=
  match p with
  | VStr s => Ok (VStr (re_sub_dash s))
  | _ => Raise TypeError
  end.

(** [x.get("date-parts")[0][i]] *)
Definition date_part (i : nat) (x : value) : result value :=
  parts <- py_get x "date-parts" ;;
  first <- py_getitem_int parts 0 ;;
  py_getitem_int first i.

(** [lambda x: x.get("date-parts")[0][0]] *)
Definition action_year : value -> result value := date_part 0.

(** [lambda x: x.get("date-parts")[0][1]] *)
Definition action_month : value -> result value := date_part 1.

(** [{key.lower(): c[key] for key in keys}], onto [acc]. *)
Fixpoint lower_keys (c : pydict) (keys : list string) (acc : pydict)
  : result pydict :=
  match keys with
  | [] => Ok acc
  | key :: r =>
      v <- dict_getitem c key ;;
      lower_keys c r (dict_set acc (str_lower key) v)
  end.

(** [" ".join(t)]: every element has to be a string. *)
Definition action_title (t : value) : result value :=
  l <- py_iter t ;;
  ss <- mapM (fun x => match x with
                       | VStr s => Ok s
                       | _ => Raise TypeError
                       end) l ;;
  Ok (VStr (str_join " " ss)).

(** [lambda t: type_converter[t]]: lists and dictionaries cannot be hashed,
    any other object that is not a key of the table is a [KeyError]. *)
Definition action_type (t : value) : result value :=
  match t with
  | VStr s =>
      match dict_get type_converter s with
      | Some ty => Ok (VStr ty)
      | None => Raise KeyError
      end
  | VList _ | VDict _ => Raise TypeError
  | VNone | VBool _ | VInt _ => Raise KeyError
  end.

Section WithCollaborators.
Context {ext : Collaborators}.

(** [lambda cs: [{key.lower(): c[key]
                  for key in set(c.keys()) - set(("key", "doi-asserted-by"))}
                 for c in cs]] *)
Definition action_reference (cs : value) : result value :=
  l <- py_iter cs ;;
  r <- mapM (fun c =>
               match c with
               | VDict d =>
                   let keys :=
                     set_iter
                       (filter
                          (fun k => negb (str_mem k ["key"; "doi-asserted-by"]))
                          (dict_keys d)) in
                   e <- lower_keys d keys [] ;;
                   Ok (VDict e)
               | _ => Raise AttributeError
               end) l ;;
  Ok (VList r).

Definition key_conversion : table :=
  [ ("DOI", One {| rule_key := Some "doi"; rule_action := None |});
    ("URL", One {| rule_key := Some "url"; rule_action := None |});
    ("author", One {| rule_key := Some "author_list";
                      rule_action := Some action_author |});
    ("container-title", One {| rule_key := Some "journal";
                               rule_action := Some action_container_title |});
    ("issue", One {| rule_key := None; rule_action := None |});
    ("language", One {| rule_key := None; rule_action := None |});
    ("page", One {| rule_key := Some "pages";
                    rule_action := Some action_page |});
    ("published-print",
        Many [ {| rule_key := Some "year"; rule_action := Some action_year |};
               {| rule_key := Some "month";
                  rule_action := Some action_month |} ]);
    ("publisher", One {| rule_key := None; rule_action := None |});
    ("reference", One {| rule_key := Some "citations";
                         rule_action := Some action_reference |});
    ("title", One {| rule_key := Some "title";
                     rule_action := Some action_title |});
    ("type", One {| rule_key := Some "type";
                    rule_action := Some action_type |});
    ("volume", One {| rule_key := None; rule_action := None |}) ].

(** ** [crossref_data_to_papis_data] *)

(** [papis_key]: the rule's key, or the source key. *)
Definition papis_key_of (xrefkey : string) (c : rule) : string :=
  match rule_key c with
  | Some k => k
  | None => xrefkey
  end.

(** The value a rule gives to its field: the action's, or the source value
    itself. *)
Definition papis_val_of (c : rule) (v : value) : result value :=
  match rule_action c with
  | Some f => f v
  | None => Ok v
  end.

(** The body of [for _conv_data in _conv_data_src]: the field is set when
    the action returns; when it raises, the [except] branch only logs. *)
Definition apply_rule (xrefkey : string) (v : value)
    (new_data : pydict) (c : rule) : pydict :=
  match papis_val_of c v with
  | Ok papis_val => dict_set new_data (papis_key_of xrefkey c) papis_val
  | Raise _ => new_data
  end.

(** [for xrefkey in key_conversion.keys()], over any table.  [data.keys()]
    is evaluated in every round and needs a dictionary. *)
Fixpoint convert_loop (t : table) (data : value) (new_data : pydict)
  : result pydict :=
  match t with
  | [] => Ok new_data
  | (xrefkey, src) :: rest =>
      match data with
      | VDict d =>
          match dict_get d xrefkey with
          | None => convert_loop rest data new_data
          | Some v =>
              convert_loop rest data
                (fold_left (apply_rule xrefkey v) (rules_of src) new_data)
          end
      | _ => Raise AttributeError
      end
  end.

(** [if 'author_list' in new_data.keys(): new_data['author'] = ...] *)
Definition derive_author (new_data : pydict) : result pydict :=
  match dict_get new_data "author_list" with
  | None => Ok new_data
  | Some author_list =>
      authors <- py_iter author_list ;;
      Ok (dict_set new_data "author"
            (VStr (str_join (config_get "multiple-authors-separator")
                     (map (str_format_au (config_get "multiple-authors-format"))
                          authors))))
  end.

(** [re.sub(r'\s', '', papis.utils.format_doc(
           papis.config.get("ref-format"), new_data))] *)
Definition ref_of (new_data : pydict) : string :=
  re_sub_space (format_doc (config_get "ref-format") new_data).

Definition crossref_data_to_papis_data (data : value) : result pydict :=
  new_data <- convert_loop key_conversion data [] ;;
  new_data <- derive_author new_data ;;
  Ok (dict_set new_data "ref" (VStr (ref_of new_data))).

(** ** [get_data] and [doi_to_data] *)

Definition _get_crossref_works (kwargs : pydict) : result value :=
  habanero_works kwargs.

(** The keyword arguments that [get_data] passes on: the parameters with a
    true value, and [sort='relevance'] when no DOI is given. *)
Definition get_data_kwargs (query author title : value) (dois : list value)
    (max_results : value) : pydict :=
  let data := [ ("query", query); ("query_author", author);
                ("ids", VList dois);
                ("query_title", title); ("limit", max_results) ] in
  let kwargs := filter (fun kv => truthy (snd kv)) data in
  if truthy (VList dois) then kwargs
  else dict_set kwargs "sort" (VStr "relevance").

Definition get_data (query author title : value) (dois : list value)
    (max_results : value) : result (list pydict) :=
  let kwargs := get_data_kwargs query author title dois max_results in
  match _get_crossref_works kwargs with
  | Raise _ => Ok []
  | Ok results =>
      match results with
      | VDict r =>
          match dict_get r "message" with
          | None => Ok []
          | Some message =>
              match message with
              | VDict m =>
                  let docs := match dict_get m "items" with
                              | Some items => items
                              | None => VList [message]
                              end in
                  l <- py_iter docs ;;
                  mapM crossref_data_to_papis_data l
              | _ => Raise AttributeError
              end
          end
      | _ => Raise AttributeError
      end
  end.

(** [doi_to_data]: the [raise ValueError] stands after the [return] of the
    same branch, so an empty result falls off the end of the function, which
    returns [None]. *)
Definition doi_to_data (doi : string) : result (option pydict) :=
  let doi := get_clean_doi doi in
  results <- get_data (VStr "") (VStr "") (VStr "") [doi] (VInt 0) ;;
  match results with
  | first :: _ => Ok (Some first)
  | [] => Ok None
  end.

End WithCollaborators.

(** ** Vocabulary for the properties of the normalizer *)

(** The table read rule by rule, in the order of the two nested loops: each
    rule with the source key it is bound to. *)
Definition table_rules (t : table) : list (string * rule) :=
  flat_map (fun e => map (pair (fst e)) (rules_of (snd e))) t.

(** The canonical field that a rule writes. *)
Definition target (kr : string * rule) : string :=
  papis_key_of (fst kr) (snd kr).

(** What a rule contributes for the record [d]: a value when the source key
    is there and the action returns, nothing otherwise. *)
Definition field_of (d : pydict) (kr : string * rule) : option value :=
  match dict_get d (fst kr) with
  | Some v =>
      match papis_val_of (snd kr) v with
      | Ok x => Some x
      | Raise _ => None
      end
  | None => None
  end.

Definition contributes (d : pydict) (kr : string * rule) : bool :=
  match field_of d kr with
  | Some _ => true
  | None => false
  end.

(** One rule of the table applied to the record [d]. *)
Definition step (d : pydict) (new_data : pydict) (kr : string * rule)
  : pydict :=
  match dict_get d (fst kr) with
  | Some v => apply_rule (fst kr) v new_data (snd kr)
  | None => new_data
  end.

(** The record after the two loops of [crossref_data_to_papis_data]. *)
Definition mapped {ext : Collaborators} (d : pydict) : pydict :=
  fold_left (step d) (table_rules key_conversion) [].

(** The entries of [out] that the rules of one source key write. *)
Definition fields_from (xrefkey : string) (src : conv) (out : pydict)
  : pydict :=
  filter (fun kv => str_mem (fst kv) (map (papis_key_of xrefkey) (rules_of src)))
         out.

(** [{k: a.get(k) for k in ['given', 'family']}] for a dictionary [a]. *)
Definition given_family (a : pydict) : value :=
  VDict [ ("given", match dict_get a "given" with
                    | Some x => x
                    | None => VNone
                    end);
          ("family", match dict_get a "family" with
                     | Some x => x
                     | None => VNone
                     end) ].

(** The keys of the citation [r] come from keys of the reference [c] that
    are kept, in lower case. *)
Definition lowered_from (c r : pydict) : Prop :=
  forall k, In k (dict_keys r) ->
    str_lower k = k /\
    exists k0, In k0 (dict_keys c) /\ k0 <> "key" /\
               k0 <> "doi-asserted-by" /\ k = str_lower k0.

(** A mapping, among the objects of the model, is a dictionary. *)
Definition is_mapping (v : value) : bool :=
  match v with
  | VDict _ => true
  | _ => false
  end.

(** The specification's name for the error of an unusable input.  No class
    of that name exists in the sources. *)
Definition InvalidSourceRecord : exn := OtherError "InvalidSourceRecord".

End Crossref.

(* ===================================================================== *)
(** * papis/commands/explore.py *)
(* ===================================================================== *)

Module Explore.
Import Py Crossref.

(** What the stages call and [explore.py] does not define.  [Document] is
    the class of [papis.document]. *)
Class Services (Document : Type) : Type := {
  (** [papis.document.from_data(data=d)] *)
  from_data : pydict -> Document;
  (** [papis.api.pick_doc(docs)]: the chosen document, or [None] *)
  pick_doc : list Document -> option Document;
  (** [papis.commands.export.run(docs, to_format=format)] *)
  export_run : list Document -> string -> string;
  (** [papis.utils.format_doc(command, doc)] *)
  format_command : string -> Document -> string;
  (** [shlex.split(s)] *)
  shlex_split : string -> result (list string);
  (** [subprocess.call(argv)]: the return code *)
  call : list string -> result Z;
  (** [db.query_dict(dict(doi=doi))] *)
  query_dict : string -> list Document
}.

Section Stages.
Context {ext : Collaborators} {Document : Type} {srv : Services Document}.

(** What a stage writes to the outside. *)
Inductive event : Type :=
| Printed (text : string)
| Appended (path : string) (text : string)
| Called (argv : list string).

(** [ctx.obj] with its one entry ['documents'], and what has been written
    so far. *)
Record context : Type := {
  documents : list Document;
  trace : list event
}.

(** A stage runs on the context; what it changed before an exception stays
    changed. *)
Definition M (A : Type) : Type := context -> result A * context.

Definition ret {A : Type} (a : A) : M A := fun ctx => (Ok a, ctx).

Definition bindM {A B : Type} (m : M A) (k : A -> M B) : M B :=
  fun ctx =>
    match m ctx with
    | (Ok a, ctx') => k a ctx'
    | (Raise e, ctx') => (Raise e, ctx')
    end.

Notation "x <~ m ;; k" := (bindM m (fun x => k))
  (at level 61, m at next level, right associativity).

Definition lift {A : Type} (r : result A) : M A := fun ctx => (r, ctx).

Definition get_documents : M (list Document) :=
  fun ctx => (Ok (documents ctx), ctx).

Definition set_documents (docs : list Document) : M unit :=
  fun ctx => (Ok tt, {| documents := docs; trace := trace ctx |}).

(** [ctx.obj['documents'] += docs] *)
Definition add_documents (docs : list Document) : M unit :=
  fun ctx =>
    (Ok tt, {| documents := documents ctx ++ docs; trace := trace ctx |}).

Definition emit (e : event) : M unit :=
  fun ctx =>
    (Ok tt, {| documents := documents ctx; trace := trace ctx ++ [e] |}).

(** [cli]: the group callback, [ctx.obj = {'documents': []}]. *)
Definition cli : context := {| documents := []; trace := [] |}.

(** [crossref]: [get_data] without DOIs, every record made a document and
    added to the accumulator. *)
Definition crossref (query author title max : value) : M unit :=
  data <~ lift (get_data query author title [] max) ;;
  let docs := map from_data data in
  add_documents docs.

(** [filter(lambda x: x is not None, l)] *)
Fixpoint not_none {A : Type} (l : list (option A)) : list A :=
  match l with
  | [] => []
  | Some x :: r => x :: not_none r
  | None :: r => not_none r
  end.

(** [pick] *)
Definition pick (number : option Z) : M unit :=
  docs <~ get_documents ;;
  docs <~ match number with
          | Some n =>
              d <~ lift (list_getitem docs (n - 1)) ;;
              ret [d]
          | None => ret docs
          end ;;
  set_documents (not_none [pick_doc docs]).

(** [export] *)
Definition export (format : string) (out : option string) : M unit :=
  docs <~ get_documents ;;
  let outstring := export_run docs format in
  match out with
  | Some path => emit (Appended path outstring)
  | None => emit (Printed outstring)
  end.

(** The body of [for doc in docs] in [cmd], over the remaining documents. *)
Fixpoint cmd_loop (command : string) (docs : list Document) : M unit :=
  match docs with
  | [] => ret tt
  | doc :: rest =>
      let fcommand := format_command command doc in
      splitted_command <~ lift (shlex_split fcommand) ;;
      _ <~ lift (call splitted_command) ;;
      _ <~ emit (Called splitted_command) ;;
      cmd_loop command rest
  end.

(** [cmd] *)
Definition cmd (command : string) : M unit :=
  docs <~ get_documents ;;
  cmd_loop command docs.

(** ** The chain of commands *)

Inductive stage : Type :=
| StCrossref (query author title max : value)
| StPick (number : option Z)
| StExport (format : string) (out : option string)
| StCmd (command : string).

Definition run_stage (st : stage) : M unit :=
  match st with
  | StCrossref query author title max => crossref query author title max
  | StPick number => pick number
  | StExport format out => export format out
  | StCmd command => cmd command
  end.

(** The subcommands of a chained group run in the order of the command line;
    an exception ends the run. *)
Fixpoint run_stages (stages : list stage) : M unit :=
  match stages with
  | [] => ret tt
  | st :: rest => _ <~ run_stage st ;; run_stages rest
  end.

(** [papis explore st1 st2 ...] *)
Definition explore (stages : list stage) : result unit * context :=
  run_stages stages cli.

(** The accumulator that the stage at position [i] finds, when the stages
    before it have returned. *)
Definition accumulator_seen_by (i : nat) (stages : list stage)
  : option (list Document) :=
  match run_stages (firstn i stages) cli with
  | (Ok _, ctx) => Some (documents ctx)
  | (Raise _, _) => None
  end.

(** ** Vocabulary for the properties of the chain *)

(** [st] is a producer of the records [out]: it returns, and the accumulator
    it leaves is the one it found followed by [out]. *)
Definition produces (st : stage) (out : list Document) : Prop :=
  forall ctx, exists ctx',
    run_stage st ctx = (Ok tt, ctx') /\
    documents ctx' = documents ctx ++ out.

(** The crossref client fails on [kwargs]: it raises, or its answer has no
    ['message']. *)
Definition retrieval_fails (kwargs : pydict) : Prop :=
  (exists e, _get_crossref_works kwargs = Raise e) \/
  (exists r, _get_crossref_works kwargs = Ok (VDict r) /\
             dict_get r "message" = None).

(** ** The loop of [citations] over the DOIs *)

(** An entry of [dois_with_data]: the document of the library, or what
    [doi_to_data] returned. *)
Inductive citation_data : Type :=
| FromLibrary (doc : Document)
| FromCrossref (data : option pydict).

(** One round of [for j, doi in progress(enumerate(dois), ...)], on
    [(dois_with_data, failed_dois)]. *)
Definition citations_step (acc : list citation_data * list string)
    (doi : string) : list citation_data * list string :=
  let (dois_with_data, failed_dois) := acc in
  match query_dict doi with
  | found :: _ => (dois_with_data ++ [FromLibrary found], failed_dois)
  | [] =>
      match doi_to_data doi with
      | Ok data => (dois_with_data ++ [FromCrossref data], failed_dois)
      | Raise ValueError => (dois_with_data, failed_dois ++ [doi])
      | Raise _ => (dois_with_data, failed_dois)
      end
  end.

Definition citations_loop (dois : list string)
  : list citation_data * list string :=
  fold_left citations_step dois ([], []).

End Stages.

End Explore.

(* ===================================================================== *)
(** * papis/commands/explore.py: the other producers *)
(* ===================================================================== *)

Module Sources.
Import Py Crossref Explore.

(** The adapters of the other web services and the library, none of them
    defined in [explore.py]; each returns or raises. *)
Class Adapters (Document : Type) : Type := {
  (** [papis.arxiv.get_data] on its keyword arguments *)
  arxiv_get_data : pydict -> result (list pydict);
  (** [papis.isbnplus.get_data(query=, author=, title=)] *)
  isbnplus_get_data : value -> value -> value -> result (list pydict);
  (** [papis.isbn.get_data(query=, service=)] *)
  isbn_get_data : value -> string -> result (list pydict);
  (** [papis.dissemin.get_data(query=)] *)
  dissemin_get_data : value -> result (list pydict);
  (** [papis.base.get_data(query=)] *)
  base_get_data : value -> result (list pydict);
  (** the builtin [ascii] *)
  py_ascii : value -> string;
  (** [pylibgen.Library().search(text, mode)]: identifiers *)
  libgen_search : string -> string -> result (list value);
  (** [pylibgen.Library().lookup(ids)]: the [__dict__] of every book *)
  libgen_lookup : list value -> result (list pydict);
  (** [papis.document.from_folder(path)] *)
  from_folder : value -> result Document;
  (** [papis.database.get(library=library).query(query)] *)
  db_query : value -> value -> result (list Document)
}.

Section Producers.
Context {Document : Type} {srv : Services Document} {ada : Adapters Document}.

Notation "x <~ m ;; k" := (bindM m (fun x => k))
  (at level 61, m at next level, right associativity).

(** [x or 0] *)
Definition or_zero (x : value) : value :=
  if truthy x then x else VInt 0.

(** [arxiv] *)
Definition arxiv (query author title abstract comment journal report_number
    category id_list page max : value) : M unit :=
  data <~ lift (arxiv_get_data
                  [ ("query", query); ("author", author); ("title", title);
                    ("abstract", abstract); ("comment", comment);
                    ("journal", journal); ("report_number", report_number);
                    ("category", category); ("id_list", id_list);
                    ("page", or_zero page); ("max_results", max) ]) ;;
  let docs := map from_data data in
  add_documents docs.

(** [try: data = lg.lookup(ids) except: data = []] and the like *)
Definition or_empty {A : Type} (r : result (list A)) : list A :=
  match r with
  | Ok data => data
  | Raise _ => []
  end.

(** [if text: ids += lg.search(ascii(text), mode)] *)
Definition libgen_ids (ids : list value) (text : value) (mode : string)
  : result (list value) :=
  if truthy text then
    found <- libgen_search (py_ascii text) mode ;;
    Ok (ids ++ found)
  else Ok ids.

(** [libgen]: the searches run for the author, the ISBN and the title, in
    that order; only the lookup is guarded. *)
Definition libgen (author title isbn : value) : M unit :=
  ids <~ lift (libgen_ids [] author "author") ;;
  ids <~ lift (libgen_ids ids isbn "isbn") ;;
  ids <~ lift (libgen_ids ids title "title") ;;
  let data := or_empty (libgen_lookup ids) in
  let docs := map from_data data in
  add_documents docs.

(** [isbnplus]: whatever the adapter raises is swallowed. *)
Definition isbnplus (query author title : value) : M unit :=
  let data := or_empty (isbnplus_get_data query author title) in
  let docs := map from_data data in
  add_documents docs.

(** [isbn] *)
Definition isbn (query : value) (service : string) : M unit :=
  data <~ lift (isbn_get_data query service) ;;
  let docs := map from_data data in
  add_documents docs.

(** [dissemin] *)
Definition dissemin (query : value) : M unit :=
  data <~ lift (dissemin_get_data query) ;;
  let docs := map from_data data in
  add_documents docs.

(** [base] *)
Definition base (query : value) : M unit :=
  data <~ lift (base_get_data query) ;;
  let docs := map from_data data in
  add_documents docs.

(** [lib]: the document of the folder is added before the library is
    queried. *)
Definition lib (query doc_folder library : value) : M unit :=
  _ <~ (if truthy doc_folder then
          doc <~ lift (from_folder doc_folder) ;;
          add_documents [doc]
        else ret tt) ;;
  docs <~ lift (db_query library query) ;;
  add_documents docs.

(** The producers of [explore.py] that go through an adapter, and the
    [crossref] stage. *)
Inductive producer : Type :=
| PArxiv (query author title abstract comment journal report_number
          category id_list page max : value)
| PLibgen (author title isbn : value)
| PCrossref (query author title max : value)
| PIsbnplus (query author title : value)
| PIsbn (query : value) (service : string)
| PDissemin (query : value)
| PBase (query : value)
| PLib (query doc_folder library : value).

Definition run_producer {ext : Collaborators} (p : producer) : M unit :=
  match p with
  | PArxiv query author title abstract comment journal report_number
           category id_list page max =>
      arxiv query author title abstract comment journal report_number
            category id_list page max
  | PLibgen author title isbn => libgen author title isbn
  | PCrossref query author title max => crossref query author title max
  | PIsbnplus query author title => isbnplus query author title
  | PIsbn query service => isbn query service
  | PDissemin query => dissemin query
  | PBase query => base query
  | PLib query doc_folder library => lib query doc_folder library
  end.

End Producers.

(** ** The DOIs that [citations] fetches *)

(** [[d.get('doi') for d in citations if d.get('doi')]] *)
Fixpoint citation_dois (citations : list value) : result (list value) :=
  match citations with
  | [] => Ok []
  | d :: rest =>
      test <- py_get d "doi" ;;
      if truthy test then
        doi <- py_get d "doi" ;;
        dois <- citation_dois rest ;;
        Ok (doi :: dois)
      else citation_dois rest
  end.

(** [dois[0:k]] for [k >= 0] *)
Definition slice_to {A : Type} (l : list A) (k : Z) : list A :=
  firstn (Z.to_nat k) l.

(** The DOIs of the citations of a document, cut to [max_citations] when
    that is not negative:
    [if max_citations < 0: max_citations = len(dois)] and
    [dois = dois[0:min(max_citations, len(dois))]]. *)
Definition select_dois (citations : value) (max_citations : Z)
  : result (list value) :=
  l <- py_iter citations ;;
  dois <- citation_dois l ;;
  let n := Z.of_nat (length dois) in
  let max_citations := if (max_citations <? 0)%Z then n else max_citations in
  Ok (slice_to dois (Z.min max_citations n)).

End Sources.

(* ===================================================================== *)
(** * Concrete collaborators *)
(* ===================================================================== *)

(** A small world to run the code in: a configuration with the default
    formats, a crossref client that knows two authors and one DOI and is
    unreachable otherwise, and documents that are their own data. *)
Module Demo.
Import Py Crossref Explore.

Definition str_of (v : option value) : string :=
  match v with
  | Some (VStr s) => s
  | _ => ""
  end.

Definition dyson : pydict :=
  [ ("DOI", VStr "10.1103/PhysRev.75.486");
    ("title", VList [VStr "The Radiation Theories"]);
    ("type", VStr "journal-article");
    ("page", VStr "486-502");
    ("published-print", VDict [("date-parts", VList [VList [VInt 1949; VInt 2]])]);
    ("author", VList [VDict [("given", VStr "F. J."); ("family", VStr "Dyson");
                             ("sequence", VStr "first")]]) ].

Definition schwinger : pydict :=
  [ ("DOI", VStr "10.1103/PhysRev.73.416");
    ("title", VList [VStr "On Quantum-Electrodynamics"]);
    ("page", VInt 416) ].

(** The canonical records of the two. *)
Definition dyson_record : pydict :=
  [ ("doi", VStr "10.1103/PhysRev.75.486");
    ("author_list",
       VList [VDict [("given", VStr "F. J."); ("family", VStr "Dyson")]]);
    ("pages", VStr "486--502");
    ("year", VInt 1949);
    ("month", VInt 2);
    ("title", VStr "The Radiation Theories");
    ("type", VStr "article");
    ("author", VStr "Dyson, F. J.");
    ("ref", VStr "10.1103/PhysRev.75.486") ].

Definition schwinger_record : pydict :=
  [ ("doi", VStr "10.1103/PhysRev.73.416");
    ("title", VStr "On Quantum-Electrodynamics");
    ("ref", VStr "10.1103/PhysRev.73.416") ].

(** The entries of the table for [page] and [published-print]. *)
Definition page : rule :=
  {| rule_key := Some "pages"; rule_action := Some action_page |}.

Definition year : rule :=
  {| rule_key := Some "year"; rule_action := Some action_year |}.

Definition month : rule :=
  {| rule_key := Some "month"; rule_action := Some action_month |}.

Definition works (kwargs : pydict) : result value :=
  match dict_get kwargs "query_author", dict_get kwargs "ids" with
  | Some (VStr "Dyson"), _ =>
      Ok (VDict [("status", VStr "ok");
                 ("message", VDict [("items", VList [VDict dyson])])])
  | Some (VStr "Schwinger"), _ =>
      Ok (VDict [("status", VStr "ok");
                 ("message", VDict [("items", VList [VDict schwinger])])])
  | _, Some (VList [VStr "10.1103/PhysRev.73.416"]) =>
      Ok (VDict [("status", VStr "ok"); ("message", VDict schwinger)])
  | Some (VStr "nobody"), _ => Ok (VDict [("status", VStr "failed")])
  | _, _ => Raise (OtherError "ConnectionError")
  end.

Definition collaborators : Collaborators := {|
  config_get := fun name =>
    if String.eqb name "ref-format" then "{doc[doi]}"
    else if String.eqb name "multiple-authors-separator" then " and "
    else "{au[family]}, {au[given]}";
  str_format_au := fun _ au =>
    match au with
    | VDict d =>
        (str_of (dict_get d "family") ++ ", " ++ str_of (dict_get d "given"))%string
    | _ => ""
    end;
  format_doc := fun _ doc => str_of (dict_get doc "doi");
  get_clean_doi := VStr;
  habanero_works := works;
  set_iter := fun keys => keys
|}.

Definition services : Services pydict := {|
  from_data := fun d => d;
  pick_doc := fun docs => hd_error docs;
  export_run := fun docs _ =>
    str_join " " (map (fun d => str_of (dict_get d "ref")) docs);
  format_command := fun command doc =>
    (command ++ " " ++ str_of (dict_get doc "doi"))%string;
  shlex_split := fun s => Ok [s];
  call := fun _ => Ok 0%Z;
  query_dict := fun _ => []
|}.

(** Stages of a chain in that world. *)
Definition ask_dyson : stage :=
  StCrossref VNone (VStr "Dyson") VNone (VInt 20).

Definition ask_schwinger : stage :=
  StCrossref VNone (VStr "Schwinger") VNone (VInt 20).

Definition both_found : @context pydict :=
  {| documents := [dyson_record; schwinger_record]; trace := [] |}.



(** Services whose shell cannot parse the command of Schwinger's record. *)
Definition strict_shell : Services pydict := {|
  from_data := fun d => d;
  pick_doc := fun docs => hd_error docs;
  export_run := @export_run pydict services;
  format_command := @format_command pydict services;
  shlex_split := fun s =>
    if String.eqb s "open 10.1103/PhysRev.73.416" then Raise ValueError
    else Ok [s];
  call := fun _ => Ok 0%Z;
  query_dict := fun _ => []
|}.

(** Adapters: arXiv is unreachable, ISBNplus fails, library genesis answers
    with the identifiers it was asked for, and the library named "missing"
    cannot be opened. *)
Definition adapters : Sources.Adapters pydict := {|
  Sources.arxiv_get_data := fun _ => Raise (OtherError "ConnectionError");
  Sources.isbnplus_get_data := fun _ _ _ => Raise (OtherError "HTTPError");
  Sources.isbn_get_data := fun _ _ => Ok [];
  Sources.dissemin_get_data := fun _ => Ok [];
  Sources.base_get_data := fun _ => Ok [];
  Sources.py_ascii := fun v => ("'" ++ str_of (Some v) ++ "'")%string;
  Sources.libgen_search := fun text mode =>
    Ok [VStr (mode ++ ":" ++ text)%string];
  Sources.libgen_lookup := fun ids => Ok [[("ids", VList ids)]];
  Sources.from_folder := fun path => Ok [("folder", path)];
  Sources.db_query := fun library _ =>
    match library with
    | VStr "missing" => Raise (OtherError "Exception")
    | _ => Ok []
    end
|}.

(** The citations of a document: three, one of them without DOI. *)
Definition three_citations : value :=
  VList [ VDict [("doi", VStr "10.1/a"); ("year", VInt 1949)];
          VDict [("unstructured", VStr "Private communication")];
          VDict [("doi", VStr "10.1/b")] ].

End Demo.

(* ===================================================================== *)
(** * Properties of dictionaries and strings *)
(* ===================================================================== *)

Module PyFacts.
Import Py.

Section Dict.
Context {V : Type}.
Implicit Types (d : list (string * V)) (k : string) (v : V).

Lemma dict_get_set_eq d k v : dict_get (dict_set d k v) k = Some v.
Proof.
  induction d as [|[k' v'] r IH]; simpl.
  - now rewrite String.eqb_refl.
  - destruct (String.eqb k' k) eqn:E; simpl; rewrite E; auto.
Qed.

Lemma dict_get_set_ne d k k' v :
  k <> k' -> dict_get (dict_set d k v) k' = dict_get d k'.
Proof.
  intros N. induction d as [|[k0 v0] r IH]; simpl.
  - destruct (String.eqb k k') eqn:E; auto.
    apply String.eqb_eq in E. contradiction.
  - destruct (String.eqb k0 k) eqn:E; simpl.
    + apply String.eqb_eq in E. subst k0.
      destruct (String.eqb k k') eqn:E'; auto.
      apply String.eqb_eq in E'. contradiction.
    + now rewrite IH.
Qed.

Lemma dict_get_none_keys d k :
  dict_get d k = None <-> ~ In k (dict_keys d).
Proof.
  induction d as [|[k' v'] r IH]; simpl.
  - tauto.
  - destruct (String.eqb k' k) eqn:E.
    + apply String.eqb_eq in E. split; [discriminate | tauto].
    + apply String.eqb_neq in E. rewrite IH. tauto.
Qed.

Lemma dict_get_some_keys d k v :
  dict_get d k = Some v -> In k (dict_keys d).
Proof.
  intros H. destruct (in_dec string_dec k (dict_keys d)) as [I|I]; auto.
  apply dict_get_none_keys in I. congruence.
Qed.

Lemma dict_get_some_in d k v : dict_get d k = Some v -> In (k, v) d.
Proof.
  induction d as [|[k' v'] r IH]; simpl; [discriminate|].
  destruct (String.eqb k' k) eqn:E.
  - apply String.eqb_eq in E. intros [= ->]. subst. now left.
  - auto.
Qed.

(** A key that is not there yet is entered last. *)
Lemma dict_set_fresh d k v :
  dict_get d k = None -> dict_set d k v = d ++ [(k, v)].
Proof.
  induction d as [|[k' v'] r IH]; simpl; auto.
  destruct (String.eqb k' k); [discriminate|].
  intros H. now rewrite IH.
Qed.

(** A key that is there keeps the keys as they are. *)
Lemma dict_keys_set_present d k v :
  In k (dict_keys d) -> dict_keys (dict_set d k v) = dict_keys d.
Proof.
  induction d as [|[k' v'] r IH]; simpl; [tauto|].
  destruct (String.eqb k' k) eqn:E; simpl; auto.
  apply String.eqb_neq in E. intros [H|H]; [contradiction|].
  now rewrite IH.
Qed.

Lemma dict_keys_set_nodup d k v :
  NoDup (dict_keys d) -> NoDup (dict_keys (dict_set d k v)).
Proof.
  intros H. destruct (in_dec string_dec k (dict_keys d)) as [I|I].
  - now rewrite dict_keys_set_present.
  - rewrite dict_set_fresh by now apply dict_get_none_keys.
    unfold dict_keys in *. rewrite map_app. simpl.
    apply NoDup_app; auto.
    + repeat constructor. simpl. tauto.
    + intros x Hx [<-|[]]. contradiction.
Qed.

End Dict.

Lemma str_mem_In k l : str_mem k l = true <-> In k l.
Proof.
  unfold str_mem. rewrite existsb_exists. split.
  - intros [x [I E]]. apply String.eqb_eq in E. now subst.
  - intros I. exists k. split; auto. apply String.eqb_refl.
Qed.

Lemma distinct_NoDup l : distinct l = true -> NoDup l.
Proof.
  induction l as [|x r IH]; simpl; intros H; constructor.
  - apply andb_prop in H. destruct H as [H _].
    intros I. apply str_mem_In in I. rewrite I in H. discriminate.
  - apply IH. apply andb_prop in H. tauto.
Qed.

(** [re.sub(r'\s', '', s)] leaves no whitespace. *)
Lemma re_sub_space_clean s c :
  In c (list_ascii_of_string (re_sub_space s)) -> is_space c = false.
Proof.
  induction s as [|a r IH]; simpl; [tauto|].
  destruct (is_space a) eqn:E; simpl; auto.
  intros [<-|H]; auto.
Qed.

(** ... and keeps every other character, in order. *)
Lemma re_sub_space_filter s :
  list_ascii_of_string (re_sub_space s)
  = filter (fun c => negb (is_space c)) (list_ascii_of_string s).
Proof.
  induction s as [|a r IH]; simpl; auto.
  destruct (is_space a); simpl; now rewrite IH.
Qed.

Lemma bind_Ok {A B : Type} (m : result A) (k : A -> result B) (b : B) :
  bind m k = Ok b -> exists a, m = Ok a /\ k a = Ok b.
Proof. destruct m; simpl; [eauto | discriminate]. Qed.

Lemma mapM_Ok_length {A B : Type} (f : A -> result B) l r :
  mapM f l = Ok r -> length r = length l.
Proof.
  revert r. induction l as [|x l IH]; simpl; intros r H.
  - now inversion H.
  - destruct (f x); simpl in H; [|discriminate].
    destruct (mapM f l) eqn:E; simpl in H; [|discriminate].
    inversion H. simpl. f_equal. now apply IH.
Qed.

(** A comprehension raises what one of its elements raises. *)
Lemma mapM_Raise {A B : Type} (f : A -> result B) l e :
  mapM f l = Raise e -> exists x, In x l /\ f x = Raise e.
Proof.
  induction l as [|x l IH]; simpl; [discriminate|].
  destruct (f x) eqn:E; simpl.
  - destruct (mapM f l); simpl; [discriminate|].
    intros [= <-]. destruct IH as [y [I Hy]]; eauto.
  - intros [= <-]. eauto.
Qed.

End PyFacts.

(* ===================================================================== *)
(** * Properties of the field mapper *)
(* ===================================================================== *)

Module MapperFacts.
Import Py Crossref PyFacts.

(** The rules of one source key, read against the record. *)
Lemma fold_rules_of_key d xrefkey rs nd :
  fold_left (step d) (map (pair xrefkey) rs) nd
  = match dict_get d xrefkey with
    | Some v => fold_left (apply_rule xrefkey v) rs nd
    | None => nd
    end.
Proof.
  revert nd. induction rs as [|c rs IH]; intros nd; simpl.
  - now destruct (dict_get d xrefkey).
  - rewrite IH. unfold step. simpl. now destruct (dict_get d xrefkey).
Qed.

(** On a dictionary the two nested loops return, and they are one pass over
    the rules of the table. *)
Lemma convert_loop_dict t d nd :
  convert_loop t (VDict d) nd = Ok (fold_left (step d) (table_rules t) nd).
Proof.
  revert nd. induction t as [|[xrefkey src] rest IH]; intros nd; simpl; auto.
  rewrite fold_left_app, fold_rules_of_key.
  destruct (dict_get d xrefkey); apply IH.
Qed.

(** On anything else the first round raises. *)
Lemma convert_loop_not_dict t v nd :
  is_mapping v = false -> t <> [] ->
  convert_loop t v nd = Raise AttributeError.
Proof.
  intros Hv Ht. destruct t as [|[xrefkey src] rest]; [congruence|].
  destruct v; simpl in *; auto; discriminate.
Qed.

Lemma step_get_target d nd kr :
  dict_get (step d nd kr) (target kr)
  = match field_of d kr with
    | Some x => Some x
    | None => dict_get nd (target kr)
    end.
Proof.
  unfold step, field_of, apply_rule, target.
  destruct (dict_get d (fst kr)); auto.
  destruct (papis_val_of (snd kr) v); auto.
  apply dict_get_set_eq.
Qed.

Lemma step_get_other d nd kr k :
  k <> target kr -> dict_get (step d nd kr) k = dict_get nd k.
Proof.
  intros N. unfold step, apply_rule.
  destruct (dict_get d (fst kr)); auto.
  destruct (papis_val_of (snd kr) v); auto.
  apply dict_get_set_ne. unfold target in N. congruence.
Qed.

(** A field that no rule writes is left as it was. *)
Lemma fold_step_other d krs nd k :
  ~ In k (map target krs) ->
  dict_get (fold_left (step d) krs nd) k = dict_get nd k.
Proof.
  revert nd. induction krs as [|kr krs IH]; intros nd N; simpl in *; auto.
  rewrite IH by tauto. apply step_get_other. intros ->. tauto.
Qed.

(** When no two rules write the same field, the field of a rule holds what
    that rule contributes. *)
Lemma fold_step_get d krs nd kr :
  NoDup (map target krs) -> In kr krs ->
  dict_get (fold_left (step d) krs nd) (target kr)
  = match field_of d kr with
    | Some x => Some x
    | None => dict_get nd (target kr)
    end.
Proof.
  revert nd. induction krs as [|kr0 krs IH]; intros nd D I; [destruct I|].
  simpl in D. inversion D as [|? ? Hnotin Hrest]; subst.
  simpl. destruct I as [->|I].
  - rewrite fold_step_other by assumption. apply step_get_target.
  - rewrite IH by assumption.
    destruct (field_of d kr); auto.
    apply step_get_other. intros E. apply Hnotin. rewrite <- E.
    now apply in_map.
Qed.

(** The fields come in the order of the rules that contribute. *)
Lemma fold_step_keys d krs nd :
  NoDup (dict_keys nd ++ map target krs) ->
  dict_keys (fold_left (step d) krs nd)
  = dict_keys nd ++ map target (filter (contributes d) krs).
Proof.
  revert nd. induction krs as [|kr krs IH]; intros nd D; simpl.
  - now rewrite app_nil_r.
  - assert (Hfresh : dict_get nd (target kr) = None).
    { apply dict_get_none_keys. intros I.
      apply NoDup_remove_2 in D. apply D. apply in_or_app. now left. }
    assert (Hstep : dict_keys (step d nd kr)
                    = dict_keys nd
                      ++ (if contributes d kr then [target kr] else [])).
    { unfold step, contributes, field_of, apply_rule.
      destruct (dict_get d (fst kr)); [|now rewrite app_nil_r].
      destruct (papis_val_of (snd kr) v); [|now rewrite app_nil_r].
      rewrite dict_set_fresh by exact Hfresh.
      unfold dict_keys. now rewrite map_app. }
    rewrite IH.
    + rewrite Hstep. destruct (contributes d kr); simpl.
      * now rewrite <- app_assoc.
      * now rewrite app_nil_r.
    + rewrite Hstep. destruct (contributes d kr).
      * rewrite <- app_assoc. exact D.
      * rewrite app_nil_r. simpl in D. now apply NoDup_remove_1 in D.
Qed.

End MapperFacts.

(* ===================================================================== *)
(** * Properties of [crossref_data_to_papis_data] *)
(* ===================================================================== *)

Module NormalizerFacts.
Import Py Crossref PyFacts MapperFacts.

Section WithCollaborators.
Context {ext : Collaborators}.

(** The fields that the table writes, in its order. *)
Lemma key_conversion_targets :
  map target (table_rules key_conversion)
  = [ "doi"; "url"; "author_list"; "journal"; "issue"; "language"; "pages";
      "year"; "month"; "publisher"; "citations"; "title"; "type"; "volume" ].
Proof. reflexivity. Qed.

(** No two rules of the table write the same field. *)
Lemma key_conversion_injective :
  NoDup (map target (table_rules key_conversion)).
Proof. rewrite key_conversion_targets. now apply distinct_NoDup. Qed.

Lemma author_not_target kr :
  In kr (table_rules key_conversion) -> target kr <> "author".
Proof.
  intros I E. apply (in_map target) in I.
  rewrite key_conversion_targets, E in I.
  simpl in I. repeat (destruct I as [I|I]; [discriminate|]). exact I.
Qed.

Lemma ref_not_target kr :
  In kr (table_rules key_conversion) -> target kr <> "ref".
Proof.
  intros I E. apply (in_map target) in I.
  rewrite key_conversion_targets, E in I.
  simpl in I. repeat (destruct I as [I|I]; [discriminate|]). exact I.
Qed.

(** The rules of an entry of the table are rules of the table. *)
Lemma in_table_rules (t : table) xrefkey src c :
  In (xrefkey, src) t -> In c (rules_of src) ->
  In (xrefkey, c) (table_rules t).
Proof.
  intros It Ic. unfold table_rules. apply in_flat_map.
  exists (xrefkey, src). split; auto. simpl. now apply in_map.
Qed.

(** The rules of one entry write fields that differ, in a table where all
    rules do. *)
Lemma entry_targets_nodup (t : table) xrefkey src :
  NoDup (map target (table_rules t)) -> In (xrefkey, src) t ->
  NoDup (map (papis_key_of xrefkey) (rules_of src)).
Proof.
  intros D I. apply in_split in I. destruct I as [l1 [l2 ->]].
  unfold table_rules in D. rewrite flat_map_app in D. simpl in D.
  rewrite !map_app, map_map in D. simpl in D.
  apply NoDup_app_remove_l in D. now apply NoDup_app_remove_r in D.
Qed.

Lemma mapped_get d kr :
  In kr (table_rules key_conversion) ->
  dict_get (mapped d) (target kr) = field_of d kr.
Proof.
  intros I. unfold mapped.
  rewrite fold_step_get by (auto using key_conversion_injective).
  now destruct (field_of d kr).
Qed.

Lemma mapped_keys d :
  dict_keys (mapped d)
  = map target (filter (contributes d) (table_rules key_conversion)).
Proof.
  unfold mapped. rewrite fold_step_keys; auto.
  simpl app. apply key_conversion_injective.
Qed.

Lemma mapped_get_other d k :
  ~ In k (map target (table_rules key_conversion)) ->
  dict_get (mapped d) k = None.
Proof. intros N. unfold mapped. now rewrite fold_step_other. Qed.

(** The author action returns lists only. *)
Lemma action_author_list v x :
  action_author v = Ok x -> exists l, x = VList l.
Proof.
  unfold action_author. destruct (py_iter v); simpl; [|discriminate].
  match goal with |- context [mapM ?f a] => destruct (mapM f a) end;
    simpl; [|discriminate].
  intros [= <-]. eauto.
Qed.

Lemma mapped_author_list d al :
  dict_get (mapped d) "author_list" = Some al -> exists l, al = VList l.
Proof.
  intros H.
  assert (G : dict_get (mapped d) "author_list"
              = field_of d ("author",
                            {| rule_key := Some "author_list";
                               rule_action := Some action_author |})).
  { apply (mapped_get d ("author",
                         {| rule_key := Some "author_list";
                            rule_action := Some action_author |})).
    do 2 right. left. reflexivity. }
  rewrite G in H. unfold field_of, papis_val_of in H. simpl in H.
  destruct (dict_get d "author") as [v|]; [|discriminate].
  destruct (action_author v) eqn:E; [|discriminate].
  injection H as <-. eapply action_author_list; eauto.
Qed.

(** The record when the author has been derived: the mapped fields, and
    [author] last when there is an [author_list]. *)
Lemma derive_author_mapped d :
  exists nd,
    derive_author (mapped d) = Ok nd /\
    (forall k, k <> "author" -> dict_get nd k = dict_get (mapped d) k) /\
    dict_keys nd
    = dict_keys (mapped d)
      ++ (if dict_mem (mapped d) "author_list" then ["author"] else []).
Proof.
  unfold derive_author, dict_mem.
  destruct (dict_get (mapped d) "author_list") as [al|] eqn:E.
  - destruct (mapped_author_list d al E) as [l ->]. simpl.
    eexists. split; [reflexivity|]. split.
    + intros k N. apply dict_get_set_ne. congruence.
    + rewrite dict_set_fresh.
      * unfold dict_keys. now rewrite map_app.
      * apply mapped_get_other. rewrite key_conversion_targets.
        simpl. intros I.
        repeat (destruct I as [I|I]; [discriminate|]). exact I.
  - exists (mapped d). rewrite app_nil_r. auto.
Qed.

(** What the normalizer returns on a dictionary: it always returns; the
    fields of the table hold what their rules contribute; the keys are the
    contributing fields in the order of the table, then [author] when it is
    derived, then [ref], which is computed on the record before it. *)
Lemma normalizer_on_dict d :
  exists nd,
    (new_data <- convert_loop key_conversion (VDict d) [] ;;
     derive_author new_data) = Ok nd /\
    crossref_data_to_papis_data (VDict d)
    = Ok (nd ++ [("ref", VStr (ref_of nd))]) /\
    (forall kr, In kr (table_rules key_conversion) ->
                dict_get nd (target kr) = field_of d kr) /\
    dict_keys nd
    = map target (filter (contributes d) (table_rules key_conversion))
      ++ (if dict_mem (mapped d) "author_list" then ["author"] else []) /\
    dict_get nd "ref" = None.
Proof.
  destruct (derive_author_mapped d) as [nd [Hd [Hget Hkeys]]].
  assert (Href : dict_get nd "ref" = None).
  { rewrite Hget by discriminate. apply mapped_get_other.
    rewrite key_conversion_targets. simpl. intros I.
    repeat (destruct I as [I|I]; [discriminate|]). exact I. }
  exists nd. unfold crossref_data_to_papis_data.
  rewrite convert_loop_dict. fold (mapped d). simpl. rewrite Hd. simpl.
  repeat split; auto.
  - now rewrite dict_set_fresh.
  - intros kr I. rewrite Hget by now apply author_not_target.
    now apply mapped_get.
  - now rewrite Hkeys, mapped_keys.
Qed.

Lemma step_keys_nodup d nd kr :
  NoDup (dict_keys nd) -> NoDup (dict_keys (step d nd kr)).
Proof.
  intros D. unfold step, apply_rule.
  destruct (dict_get d (fst kr)); auto.
  destruct (papis_val_of (snd kr) v); auto.
  now apply dict_keys_set_nodup.
Qed.

Lemma fold_step_keys_nodup d krs nd :
  NoDup (dict_keys nd) -> NoDup (dict_keys (fold_left (step d) krs nd)).
Proof.
  revert nd. induction krs as [|kr krs IH]; intros nd D; simpl; auto.
  apply IH. now apply step_keys_nodup.
Qed.

Lemma derive_author_keys_nodup nd nd' :
  NoDup (dict_keys nd) -> derive_author nd = Ok nd' -> NoDup (dict_keys nd').
Proof.
  intros D. unfold derive_author.
  destruct (dict_get nd "author_list"); [|now intros [= <-]].
  destruct (py_iter v); simpl; [|discriminate].
  intros [= <-]. now apply dict_keys_set_nodup.
Qed.

(** The same, read on the record that is returned. *)
Lemma normalizer_fields d :
  exists out,
    crossref_data_to_papis_data (VDict d) = Ok out /\
    NoDup (dict_keys out) /\
    forall kr, In kr (table_rules key_conversion) ->
               dict_get out (target kr) = field_of d kr.
Proof.
  destruct (normalizer_on_dict d) as [nd [Hnd [Hout [Hget [Hkeys Href]]]]].
  exists (nd ++ [("ref", VStr (ref_of nd))]). split; [exact Hout|].
  rewrite <- (dict_set_fresh nd "ref" (VStr (ref_of nd)) Href). split.
  - apply dict_keys_set_nodup.
    rewrite convert_loop_dict in Hnd. unfold bind in Hnd.
    eapply derive_author_keys_nodup; [|exact Hnd].
    apply fold_step_keys_nodup. constructor.
  - intros kr I. rewrite dict_get_set_ne.
    + now apply Hget.
    + intros E. symmetry in E. revert E. now apply ref_not_target.
Qed.

(** Every field of the returned record is [ref], the derived [author], or
    the field of a rule that contributes. *)
Lemma normalizer_keys d out k :
  crossref_data_to_papis_data (VDict d) = Ok out ->
  In k (dict_keys out) ->
  k = "ref" \/ k = "author" \/
  exists kr, In kr (table_rules key_conversion) /\
             contributes d kr = true /\ target kr = k.
Proof.
  destruct (normalizer_on_dict d) as [nd [_ [Hout [_ [Hkeys _]]]]].
  rewrite Hout. intros [= <-]. unfold dict_keys at 1. rewrite map_app.
  fold (dict_keys nd). rewrite Hkeys. cbn [map fst]. rewrite !in_app_iff.
  intros [[I|I]|[I|[]]]; auto.
  - right. right. apply in_map_iff in I. destruct I as [kr [E I]].
    apply filter_In in I. exists kr. tauto.
  - destruct (dict_mem (mapped d) "author_list"); [|destruct I].
    destruct I as [<-|[]]. auto.
Qed.

Lemma contributes_field_of d kr :
  contributes d kr = true <-> exists x, field_of d kr = Some x.
Proof.
  unfold contributes. destruct (field_of d kr); split; eauto.
  - discriminate.
  - intros [x H]. discriminate.
Qed.

End WithCollaborators.

End NormalizerFacts.

(* ===================================================================== *)
(** * The record normalizer: failure isolation, fan-out, [ref], pages *)
(* ===================================================================== *)

Module Normalizer.
Import Py Crossref PyFacts MapperFacts NormalizerFacts.

Section WithCollaborators.
Context {ext : Collaborators}.

(** C1.  Failure isolation.  Let a source key of the table be present in the
    record and let the action of one of its rules raise on the value.  Then
    the normalizer still returns a record (the exception does not reach the
    caller); the field of that rule is not in it; every rule of the table
    whose source key is present and whose action returns has its field in
    it, with the value of the rule; and the record has no field besides
    those, the derived [author] and [ref]. *)
Theorem failure_isolation (d : pydict) (xrefkey : string) (src : conv)
    (v : value) (c : rule) (e : exn) :
  In (xrefkey, src) key_conversion ->
  dict_get d xrefkey = Some v ->
  In c (rules_of src) ->
  papis_val_of c v = Raise e ->
  exists out,
    crossref_data_to_papis_data (VDict d) = Ok out /\
    dict_get out (papis_key_of xrefkey c) = None /\
    (forall xrefkey' src' v' c' x,
        In (xrefkey', src') key_conversion ->
        dict_get d xrefkey' = Some v' ->
        In c' (rules_of src') ->
        papis_val_of c' v' = Ok x ->
        dict_get out (papis_key_of xrefkey' c') = Some x) /\
    (forall k, In k (dict_keys out) ->
        k = "ref" \/ k = "author" \/
        exists xrefkey' src' v' c' x,
          In (xrefkey', src') key_conversion /\
          dict_get d xrefkey' = Some v' /\
          In c' (rules_of src') /\
          papis_val_of c' v' = Ok x /\
          k = papis_key_of xrefkey' c').
Proof.
  intros It Hv Ic He.
  destruct (normalizer_fields d) as [out [Hout [_ Hget]]].
  exists out. split; [exact Hout|]. split; [|split].
  - change (papis_key_of xrefkey c) with (target (xrefkey, c)).
    rewrite Hget by (eapply in_table_rules; eauto).
    unfold field_of. simpl. now rewrite Hv, He.
  - intros xrefkey' src' v' c' x It' Hv' Ic' Hx.
    change (papis_key_of xrefkey' c') with (target (xrefkey', c')).
    rewrite Hget by (eapply in_table_rules; eauto).
    unfold field_of. simpl. now rewrite Hv', Hx.
  - intros k Ik.
    destruct (normalizer_keys d out k Hout Ik) as [H|[H|[kr [Ikr [Hc <-]]]]];
      auto.
    right. right. destruct kr as [xrefkey' c'].
    unfold table_rules in Ikr. apply in_flat_map in Ikr.
    destruct Ikr as [[k0 src'] [It' Im]]. simpl in Im.
    apply in_map_iff in Im. destruct Im as [c0 [[= -> ->] Ic']].
    unfold contributes, field_of in Hc. simpl in Hc.
    destruct (dict_get d xrefkey') as [v'|] eqn:Hv'; [|discriminate].
    destruct (papis_val_of c' v') as [x|] eqn:Hx; [|discriminate].
    exists xrefkey', src', v', c', x. auto.
Qed.

(** C3.  Fan-out.  Let a source key of the table be bound to [n] rules and
    be present in the record, and let all their actions return on its
    value.  Then the normalized record has exactly [n] fields from that
    source key, one per rule and with the value of the rule. *)
Theorem fan_out (d : pydict) (xrefkey : string) (src : conv) (v : value) :
  In (xrefkey, src) key_conversion ->
  dict_get d xrefkey = Some v ->
  (forall c, In c (rules_of src) -> exists x, papis_val_of c v = Ok x) ->
  exists out,
    crossref_data_to_papis_data (VDict d) = Ok out /\
    length (fields_from xrefkey src out) = length (rules_of src) /\
    (forall c, In c (rules_of src) ->
       exists x, papis_val_of c v = Ok x /\
                 In (papis_key_of xrefkey c, x) (fields_from xrefkey src out)).
Proof.
  intros It Hv Hall.
  destruct (normalizer_fields d) as [out [Hout [Hnodup Hget]]].
  exists out. split; [exact Hout|].
  assert (Hfield : forall c, In c (rules_of src) ->
            exists x, papis_val_of c v = Ok x /\
                      dict_get out (papis_key_of xrefkey c) = Some x).
  { intros c Ic. destruct (Hall c Ic) as [x Hx]. exists x. split; auto.
    change (papis_key_of xrefkey c) with (target (xrefkey, c)).
    rewrite Hget by (eapply in_table_rules; eauto).
    unfold field_of. simpl. now rewrite Hv, Hx. }
  split.
  - rewrite <- (length_map (papis_key_of xrefkey) (rules_of src)).
    rewrite <- (length_map fst (fields_from xrefkey src out)).
    apply Permutation_length. unfold fields_from.
    rewrite <- (filter_map_swap
                  (fun k => str_mem k (map (papis_key_of xrefkey) (rules_of src)))
                  fst out).
    apply NoDup_Permutation.
    + now apply NoDup_filter.
    + eapply entry_targets_nodup; [apply key_conversion_injective | exact It].
    + intros k. rewrite filter_In, str_mem_In. split; [tauto|].
      intros Ik. split; auto.
      apply in_map_iff in Ik. destruct Ik as [c [<- Ic]].
      destruct (Hfield c Ic) as [x [_ Hx]].
      eapply dict_get_some_keys; eauto.
  - intros c Ic. destruct (Hfield c Ic) as [x [Hx Hg]].
    exists x. split; auto. unfold fields_from. apply filter_In. split.
    + now apply dict_get_some_in.
    + simpl. apply str_mem_In. now apply in_map.
Qed.

(** C4.  The [ref] field is computed last: the normalized record is the
    record [nd] that holds the mapped fields and the derived [author],
    followed by the one entry [ref]; the value of [ref] is computed from
    [nd]; and no character of it is a whitespace character. *)
Theorem ref_computed_last (d : pydict) :
  exists nd,
    (new_data <- convert_loop key_conversion (VDict d) [] ;;
     derive_author new_data) = Ok nd /\
    crossref_data_to_papis_data (VDict d)
    = Ok (nd ++ [("ref", VStr (ref_of nd))]) /\
    dict_get nd "ref" = None /\
    forall ch, In ch (list_ascii_of_string (ref_of nd)) -> is_space ch = false.
Proof.
  destruct (normalizer_on_dict d) as [nd [Hnd [Hout [_ [_ Href]]]]].
  exists nd. repeat split; auto.
  intros ch. apply re_sub_space_clean.
Qed.

(** C5.  The page rule.  The record [{"page": "12-3"}] is normalized to a
    record whose field [pages] is ["12--3"]; and for every record with a
    string under [page], the normalized record has under [pages] that
    string after the dash-doubling substitution, and has no field [page]. *)
Theorem page_rule :
  (exists out,
      crossref_data_to_papis_data (VDict [("page", VStr "12-3")]) = Ok out /\
      dict_get out "pages" = Some (VStr "12--3")) /\
  (forall (d : pydict) (p : string),
      dict_get d "page" = Some (VStr p) ->
      exists out,
        crossref_data_to_papis_data (VDict d) = Ok out /\
        dict_get out "pages" = Some (VStr (re_sub_dash p)) /\
        dict_get out "page" = None).
Proof.
  split.
  - eexists. split; reflexivity.
  - intros d p Hp.
    destruct (normalizer_fields d) as [out [Hout [_ Hget]]].
    exists out. split; [exact Hout|]. split.
    + transitivity (field_of d ("page", {| rule_key := Some "pages";
                                           rule_action := Some action_page |})).
      * apply (Hget ("page", {| rule_key := Some "pages";
                                rule_action := Some action_page |})).
        do 6 right. left. reflexivity.
      * unfold field_of. simpl. now rewrite Hp.
    + apply dict_get_none_keys. intros I.
      destruct (normalizer_keys d out "page" Hout I)
        as [H|[H|[kr [Ikr [_ E]]]]]; try discriminate.
      apply (in_map target) in Ikr.
      rewrite key_conversion_targets, E in Ikr. simpl in Ikr.
      repeat (destruct Ikr as [Ikr|Ikr]; [discriminate|]). exact Ikr.
Qed.

(** C9, as the code has it.  On an input that is not a mapping the
    normalizer returns no record: the first [data.keys()] raises
    [AttributeError]. *)
Theorem non_mapping_raises (data : value) :
  is_mapping data = false ->
  crossref_data_to_papis_data data = Raise AttributeError.
Proof.
  intros H. unfold crossref_data_to_papis_data.
  rewrite convert_loop_not_dict; auto. discriminate.
Qed.

End WithCollaborators.

End Normalizer.

(* ===================================================================== *)
(** * Properties of the stages *)
(* ===================================================================== *)

Module StageFacts.
Import Py Crossref Explore PyFacts MapperFacts NormalizerFacts.

Section WithServices.
Context {ext : Collaborators} {Document : Type} {srv : Services Document}.

(** A chain cut in two: the second part starts where the first returned. *)
Lemma run_stages_app (l1 l2 : list stage) (ctx : context) :
  run_stages (l1 ++ l2) ctx
  = match run_stages l1 ctx with
    | (Ok _, ctx') => run_stages l2 ctx'
    | (Raise e, ctx') => (Raise e, ctx')
    end.
Proof.
  revert ctx. induction l1 as [|st l1 IH]; intros ctx; simpl; auto.
  unfold bindM. destruct (run_stage st ctx) as [[[]|e] ctx']; auto.
Qed.

(** The [crossref] stage is a producer of the records that [get_data]
    returns. *)
Lemma crossref_produces (query author title max : value) data :
  get_data query author title [] max = Ok data ->
  produces (StCrossref query author title max) (map from_data data).
Proof.
  intros H ctx. eexists. split.
  - simpl. unfold crossref, bindM, lift. rewrite H. reflexivity.
  - reflexivity.
Qed.

(** The loop of [cmd] never touches the accumulator, whether it returns or
    raises. *)
Lemma cmd_loop_documents (command : string) (docs : list Document)
    (ctx : context) :
  documents (snd (cmd_loop command docs ctx)) = documents ctx.
Proof.
  revert ctx. induction docs as [|doc rest IH]; intros ctx; simpl; auto.
  unfold bindM, lift, emit.
  destruct (shlex_split (format_command command doc)); simpl; auto.
  destruct (call a); simpl; auto.
  now rewrite IH.
Qed.

(** It returns when every command can be split and called. *)
Lemma cmd_loop_returns (command : string) (docs : list Document)
    (ctx : context) :
  (forall doc, In doc docs ->
     exists argv rc, shlex_split (format_command command doc) = Ok argv /\
                     call argv = Ok rc) ->
  exists ctx', cmd_loop command docs ctx = (Ok tt, ctx').
Proof.
  revert ctx. induction docs as [|doc rest IH]; intros ctx H; simpl.
  - eexists. reflexivity.
  - destruct (H doc) as [argv [rc [Hs Hc]]]; [now left|].
    unfold bindM, lift, emit. rewrite Hs, Hc.
    apply IH. intros doc' I. apply H. now right.
Qed.

(** An index beyond the end of the accumulator makes [pick] raise
    [IndexError], with the context as it was. *)
Lemma pick_beyond_end (ctx : context) (n : Z) :
  (Z.of_nat (length (documents ctx)) < n)%Z ->
  pick (Some n) ctx = (Raise IndexError, ctx).
Proof.
  intros H. unfold pick, bindM, get_documents, lift, list_getitem.
  replace (n - 1 <? 0)%Z with false by (symmetry; apply Z.ltb_ge; lia).
  replace (n - 1 <? Z.of_nat (length (documents ctx)))%Z with false
    by (symmetry; apply Z.ltb_ge; lia).
  now rewrite andb_false_r.
Qed.

End WithServices.

End StageFacts.

(* ===================================================================== *)
(** * The chain of stages: order, selection, retrieval, consumers *)
(* ===================================================================== *)

Module Pipeline.
Import Py Crossref Explore PyFacts StageFacts.

Section WithServices.
Context {ext : Collaborators} {Document : Type} {srv : Services Document}.

(** C2.  Order.  In a chain of two producers [P1], [P2], a transformer [T1]
    and a consumer [C1], the accumulator that [T1] finds is the records of
    [P1] followed by the records of [P2]: the chain is [T1] and [C1] run on
    a context with exactly those documents. *)
Theorem accumulator_order (P1 P2 T1 C1 : stage) (out1 out2 : list Document) :
  produces P1 out1 ->
  produces P2 out2 ->
  accumulator_seen_by 2 [P1; P2; T1; C1] = Some (out1 ++ out2) /\
  exists ctx,
    documents ctx = out1 ++ out2 /\
    explore [P1; P2; T1; C1] = run_stages [T1; C1] ctx.
Proof.
  intros H1 H2.
  destruct (H1 cli) as [c1 [R1 D1]].
  destruct (H2 c1) as [c2 [R2 D2]].
  simpl in D1. rewrite D1 in D2.
  assert (R : run_stages [P1; P2] cli = (Ok tt, c2)).
  { simpl. unfold bindM. rewrite R1, R2. reflexivity. }
  split.
  - unfold accumulator_seen_by. simpl firstn. rewrite R. now rewrite D2.
  - exists c2. split; [exact D2|].
    unfold explore. change [P1; P2; T1; C1] with ([P1; P2] ++ [T1; C1]).
    rewrite run_stages_app, R. reflexivity.
Qed.

(** C6, as the code has it.  Selection.  With an explicit index [n] between
    1 and the length of the accumulator, [pick] offers the picker the [n]-th
    record alone, and the accumulator becomes that one record when the picker
    returns it; and whenever the picker returns no record, for that candidate
    or, without an index, for the whole accumulator, the accumulator becomes
    empty. *)
Theorem pick_contract (ctx : context) (n : Z) (d : Document) :
  (1 <= n <= Z.of_nat (length (documents ctx)))%Z ->
  nth_error (documents ctx) (Z.to_nat (n - 1)) = Some d ->
  (pick_doc [d] = Some d ->
   pick (Some n) ctx = (Ok tt, {| documents := [d]; trace := trace ctx |})) /\
  (pick_doc [d] = None ->
   pick (Some n) ctx = (Ok tt, {| documents := []; trace := trace ctx |})) /\
  (pick_doc (documents ctx) = None ->
   pick None ctx = (Ok tt, {| documents := []; trace := trace ctx |})).
Proof.
  intros Hn Hd.
  assert (G : list_getitem (documents ctx) (n - 1) = Ok d).
  { unfold list_getitem.
    replace (n - 1 <? 0)%Z with false by (symmetry; apply Z.ltb_ge; lia).
    replace ((0 <=? n - 1) && (n - 1 <? Z.of_nat (length (documents ctx))))%Z
      with true.
    - now rewrite Hd.
    - symmetry. apply andb_true_intro. split.
      + apply Z.leb_le. lia.
      + apply Z.ltb_lt. lia. }
  unfold pick, bindM, get_documents, lift, ret, set_documents.
  rewrite G. simpl.
  repeat split; intros ->; reflexivity.
Qed.

(** C7.  Retrieval failure.  When the crossref client raises on the keyword
    arguments of the query, or answers without ['message'], [get_data]
    returns the empty list; and the [crossref] stage, which queries without
    DOIs, then returns with the context as it found it, so that the chain
    goes on with the stages that follow. *)
Theorem retrieval_failure (query author title : value) (dois : list value)
    (max_results : value) :
  retrieval_fails (get_data_kwargs query author title dois max_results) ->
  get_data query author title dois max_results = Ok [] /\
  (dois = [] ->
   forall (ctx : context) (rest : list stage),
     crossref query author title max_results ctx = (Ok tt, ctx) /\
     run_stages (StCrossref query author title max_results :: rest) ctx
     = run_stages rest ctx).
Proof.
  intros F.
  assert (G : get_data query author title dois max_results = Ok []).
  { unfold get_data. destruct F as [[e E]|[r [E M]]]; rewrite E; auto.
    now rewrite M. }
  split; [exact G|].
  intros -> ctx rest.
  assert (C : crossref query author title max_results ctx = (Ok tt, ctx)).
  { unfold crossref, bindM, lift, add_documents. rewrite G. simpl.
    rewrite app_nil_r. now destruct ctx. }
  split; [exact C|].
  simpl. unfold bindM. now rewrite C.
Qed.

(** C8.  Consumers.  [export] returns and leaves the documents of the
    context as they were; [cmd] leaves them as they were whether it returns
    or raises, and it returns when every command can be split and called.
    So a stage that follows finds the same records. *)
Theorem consumers_pass_through (ctx : context) :
  (forall format out,
     exists ctx',
       export format out ctx = (Ok tt, ctx') /\
       documents ctx' = documents ctx) /\
  (forall command, documents (snd (cmd command ctx)) = documents ctx) /\
  (forall command,
     (forall doc, In doc (documents ctx) ->
        exists argv rc,
          shlex_split (format_command command doc) = Ok argv /\
          call argv = Ok rc) ->
     exists ctx',
       cmd command ctx = (Ok tt, ctx') /\ documents ctx' = documents ctx).
Proof.
  split; [|split].
  - intros format out. unfold export, bindM, get_documents.
    destruct out; eexists; split; reflexivity.
  - intros command. unfold cmd, bindM, get_documents.
    apply cmd_loop_documents.
  - intros command H. unfold cmd, bindM, get_documents.
    destruct (cmd_loop_returns command (documents ctx) ctx H) as [ctx' E].
    exists ctx'. split; [exact E|].
    rewrite <- (cmd_loop_documents command (documents ctx) ctx).
    now rewrite E.
Qed.

(** C10.  When [get_data] returns the empty list for a DOI, [doi_to_data]
    returns [None] and raises nothing; the round of [citations] for that DOI,
    when the library does not have it, then enters [None] among the data and
    leaves the failed DOIs as they were. *)
Theorem empty_result_is_None (doi : string) :
  get_data (VStr "") (VStr "") (VStr "") [get_clean_doi doi] (VInt 0) = Ok [] ->
  doi_to_data doi = Ok None /\
  forall dois_with_data failed_dois,
    query_dict doi = [] ->
    citations_step (dois_with_data, failed_dois) doi
    = (dois_with_data ++ [FromCrossref None], failed_dois).
Proof.
  intros H.
  assert (G : doi_to_data doi = Ok None).
  { unfold doi_to_data. now rewrite H. }
  split; [exact G|].
  intros dwd failed Q. unfold citations_step. now rewrite Q, G.
Qed.

End WithServices.

End Pipeline.

(* ===================================================================== *)
(** * The properties at work on concrete records *)
(* ===================================================================== *)

Module Runs.
Import Py Crossref Explore.

(** The page of Schwinger's record is a number: its action raises, the
    field [pages] is left out, and [doi] and [title] are there. *)
Lemma failure_isolation_run :
  In ("page", One Demo.page) (@key_conversion Demo.collaborators) /\
  dict_get Demo.schwinger "page" = Some (VInt 416) /\
  In Demo.page (rules_of (One Demo.page)) /\
  papis_val_of Demo.page (VInt 416) = Raise TypeError /\
  exists out,
    @crossref_data_to_papis_data Demo.collaborators (VDict Demo.schwinger)
    = Ok out /\
    dict_get out "pages" = None /\
    dict_get out "doi" = Some (VStr "10.1103/PhysRev.73.416") /\
    dict_get out "title" = Some (VStr "On Quantum-Electrodynamics").
Proof.
  assert (H1 : In ("page", One Demo.page) (@key_conversion Demo.collaborators))
    by (do 6 right; left; reflexivity).
  assert (H2 : dict_get Demo.schwinger "page" = Some (VInt 416))
    by reflexivity.
  assert (H3 : In Demo.page (rules_of (One Demo.page)))
    by (left; reflexivity).
  assert (H4 : papis_val_of Demo.page (VInt 416) = Raise TypeError)
    by reflexivity.
  repeat (split; [assumption|]).
  destruct (@Normalizer.failure_isolation Demo.collaborators Demo.schwinger
              "page" (One Demo.page) (VInt 416) Demo.page TypeError
              H1 H2 H3 H4) as [out [Hout [Hpages [Hrest _]]]].
  exists out. repeat split; auto.
  - apply (Hrest "DOI" (One {| rule_key := Some "doi"; rule_action := None |})
                 (VStr "10.1103/PhysRev.73.416")
                 {| rule_key := Some "doi"; rule_action := None |}).
    + left. reflexivity.
    + reflexivity.
    + left. reflexivity.
    + reflexivity.
  - apply (Hrest "title"
                 (One {| rule_key := Some "title";
                         rule_action := Some action_title |})
                 (VList [VStr "On Quantum-Electrodynamics"])
                 {| rule_key := Some "title";
                    rule_action := Some action_title |}).
    + do 10 right. left. reflexivity.
    + reflexivity.
    + left. reflexivity.
    + reflexivity.
Defined.

(** The date of Dyson's record gives a year and a month: two rules, two
    fields. *)
Lemma fan_out_run :
  In ("published-print", Many [Demo.year; Demo.month])
     (@key_conversion Demo.collaborators) /\
  dict_get Demo.dyson "published-print"
  = Some (VDict [("date-parts", VList [VList [VInt 1949; VInt 2]])]) /\
  (forall c, In c (rules_of (Many [Demo.year; Demo.month])) ->
     exists x,
       papis_val_of c (VDict [("date-parts", VList [VList [VInt 1949; VInt 2]])])
       = Ok x) /\
  exists out,
    @crossref_data_to_papis_data Demo.collaborators (VDict Demo.dyson)
    = Ok out /\
    length (fields_from "published-print" (Many [Demo.year; Demo.month]) out)
    = 2 /\
    (forall c, In c [Demo.year; Demo.month] ->
       exists x,
         papis_val_of c
           (VDict [("date-parts", VList [VList [VInt 1949; VInt 2]])]) = Ok x /\
         In (papis_key_of "published-print" c, x)
            (fields_from "published-print" (Many [Demo.year; Demo.month]) out)).
Proof.
  assert (H1 : In ("published-print", Many [Demo.year; Demo.month])
                  (@key_conversion Demo.collaborators))
    by (do 7 right; left; reflexivity).
  assert (H2 : dict_get Demo.dyson "published-print"
               = Some (VDict [("date-parts",
                               VList [VList [VInt 1949; VInt 2]])]))
    by reflexivity.
  assert (H3 : forall c, In c (rules_of (Many [Demo.year; Demo.month])) ->
     exists x,
       papis_val_of c (VDict [("date-parts", VList [VList [VInt 1949; VInt 2]])])
       = Ok x).
  { intros c [<-|[<-|[]]]; eexists; reflexivity. }
  repeat (split; [assumption|]).
  exact (@Normalizer.fan_out Demo.collaborators Demo.dyson "published-print"
           (Many [Demo.year; Demo.month]) _ H1 H2 H3).
Defined.

(** A list is no mapping: the normalizer raises [AttributeError]. *)
Lemma non_mapping_run :
  is_mapping (VList []) = false /\
  @crossref_data_to_papis_data Demo.collaborators (VList [])
  = Raise AttributeError.
Proof.
  split; [reflexivity|].
  apply (@Normalizer.non_mapping_raises Demo.collaborators (VList [])).
  reflexivity.
Defined.

(** C9 as the specification has it fails on the empty list: it is no
    mapping, and what the normalizer raises is not [InvalidSourceRecord]. *)
Lemma non_mapping_not_InvalidSourceRecord :
  is_mapping (VList []) = false /\
  @crossref_data_to_papis_data Demo.collaborators (VList [])
  <> Raise InvalidSourceRecord.
Proof. split; [reflexivity | discriminate]. Qed.

(** Two queries, then [pick] and [export]: [pick] finds Dyson's record
    followed by Schwinger's. *)
Lemma accumulator_order_run :
  @produces Demo.collaborators pydict Demo.services Demo.ask_dyson
     [Demo.dyson_record] /\
  @produces Demo.collaborators pydict Demo.services Demo.ask_schwinger
     [Demo.schwinger_record] /\
  @accumulator_seen_by Demo.collaborators pydict Demo.services 2
     [Demo.ask_dyson; Demo.ask_schwinger; StPick (Some 2%Z);
      StExport "bibtex" None]
  = Some [Demo.dyson_record; Demo.schwinger_record] /\
  @explore Demo.collaborators pydict Demo.services
     [Demo.ask_dyson; Demo.ask_schwinger; StPick (Some 2%Z);
      StExport "bibtex" None]
  = (Ok tt, {| documents := [Demo.schwinger_record];
               trace := [Printed "10.1103/PhysRev.73.416"] |}).
Proof.
  assert (H1 : @produces Demo.collaborators pydict Demo.services
                 Demo.ask_dyson [Demo.dyson_record]).
  { intros ctx.
    exists {| documents := documents ctx ++ [Demo.dyson_record];
              trace := trace ctx |}.
    split; reflexivity. }
  assert (H2 : @produces Demo.collaborators pydict Demo.services
                 Demo.ask_schwinger [Demo.schwinger_record]).
  { intros ctx.
    exists {| documents := documents ctx ++ [Demo.schwinger_record];
              trace := trace ctx |}.
    split; reflexivity. }
  repeat (split; [assumption|]).
  destruct (@Pipeline.accumulator_order Demo.collaborators pydict
              Demo.services Demo.ask_dyson Demo.ask_schwinger
              (StPick (Some 2%Z)) (StExport "bibtex" None) _ _ H1 H2)
    as [Hseen _].
  split; [exact Hseen | reflexivity].
Defined.

(** The second of two records is picked. *)
Lemma pick_contract_run :
  (1 <= 2 <= Z.of_nat (length (documents Demo.both_found)))%Z /\
  nth_error (documents Demo.both_found) (Z.to_nat (2 - 1))
  = Some Demo.schwinger_record /\
  @pick_doc pydict Demo.services [Demo.schwinger_record]
  = Some Demo.schwinger_record /\
  @pick pydict Demo.services (Some 2%Z) Demo.both_found
  = (Ok tt, {| documents := [Demo.schwinger_record]; trace := [] |}).
Proof.
  assert (H1 : (1 <= 2 <= Z.of_nat (length (documents Demo.both_found)))%Z)
    by (simpl; lia).
  assert (H2 : nth_error (documents Demo.both_found) (Z.to_nat (2 - 1))
               = Some Demo.schwinger_record) by reflexivity.
  assert (H3 : @pick_doc pydict Demo.services [Demo.schwinger_record]
               = Some Demo.schwinger_record) by reflexivity.
  repeat (split; [assumption|]).
  destruct (@Pipeline.pick_contract pydict Demo.services Demo.both_found 2%Z
              Demo.schwinger_record H1 H2) as [Hpick _].
  exact (Hpick H3).
Defined.

(** C6 as the specification has it fails on the empty accumulator with an
    index: no record is available, and [pick] does not leave an empty
    accumulator, it raises [IndexError]. *)
Lemma pick_nothing_available :
  documents (@cli pydict) = [] /\
  @pick pydict Demo.services (Some 1%Z) cli = (Raise IndexError, cli) /\
  ~ exists ctx', @pick pydict Demo.services (Some 1%Z) cli = (Ok tt, ctx').
Proof.
  split; [reflexivity|]. split; [reflexivity|].
  intros [ctx' H]. discriminate H.
Qed.

(** The client answers the query for "nobody" without a message: no record,
    and the chain goes on. *)
Lemma retrieval_failure_run :
  @retrieval_fails Demo.collaborators
     (get_data_kwargs VNone (VStr "nobody") VNone [] (VInt 20)) /\
  @get_data Demo.collaborators VNone (VStr "nobody") VNone [] (VInt 20)
  = Ok [] /\
  forall (ctx : @context pydict) (rest : list stage),
    @run_stages Demo.collaborators pydict Demo.services
       (StCrossref VNone (VStr "nobody") VNone (VInt 20) :: rest) ctx
    = @run_stages Demo.collaborators pydict Demo.services rest ctx.
Proof.
  assert (H : @retrieval_fails Demo.collaborators
                (get_data_kwargs VNone (VStr "nobody") VNone [] (VInt 20))).
  { right. eexists. split; reflexivity. }
  split; [exact H|].
  destruct (@Pipeline.retrieval_failure Demo.collaborators pydict
              Demo.services VNone (VStr "nobody") VNone [] (VInt 20) H)
    as [G S].
  split; [exact G|].
  intros ctx rest. exact (proj2 (S eq_refl ctx rest)).
Defined.

(** The client is unreachable for an unknown DOI: [doi_to_data] returns
    [None], which the loop of [citations] enters among the data. *)
Lemma empty_result_run :
  @get_data Demo.collaborators (VStr "") (VStr "") (VStr "")
     [@get_clean_doi Demo.collaborators "10.1000/unknown"] (VInt 0) = Ok [] /\
  @doi_to_data Demo.collaborators "10.1000/unknown" = Ok None /\
  @citations_loop Demo.collaborators pydict Demo.services ["10.1000/unknown"]
  = ([FromCrossref None], []).
Proof.
  assert (H : @get_data Demo.collaborators (VStr "") (VStr "") (VStr "")
                [@get_clean_doi Demo.collaborators "10.1000/unknown"] (VInt 0)
              = Ok []) by reflexivity.
  split; [exact H|].
  destruct (@Pipeline.empty_result_is_None Demo.collaborators pydict
              Demo.services "10.1000/unknown" H) as [G S].
  split; [exact G|].
  exact (S [] [] eq_refl).
Defined.

End Runs.

(* ===================================================================== *)
(** * The substitutions on strings *)
(* ===================================================================== *)

Module Substitution.
Import Py PyFacts.

(** Induction on strings two characters at a time, as [re_sub_dash] reads
    them. *)
Lemma string_pair_ind (P : string -> Prop) :
  P EmptyString ->
  (forall c, P (String c EmptyString)) ->
  (forall c c' r, P r -> P (String c' r) -> P (String c (String c' r))) ->
  forall p, P p.
Proof.
  intros H0 H1 H2 p.
  assert (G : P p /\ forall c, P (String c p)).
  { induction p as [|c' r [IHr IHc]]; split; auto. }
  exact (proj1 G).
Qed.

(** What [re_sub_dash] returns for a string that starts with a dash starts
    with a dash. *)
Lemma re_sub_dash_head r :
  exists q, re_sub_dash (String dash r) = String dash q.
Proof.
  simpl. destruct r as [|c' r']; [eauto|].
  destruct (Ascii.eqb c' dash); eauto.
Qed.

(** X1.  The page substitution only inserts dashes: without its dashes the
    result is the argument without its dashes; it is longer than the argument
    by the number of matches; and it has as many matches as the argument, so
    that a second application inserts as many dashes again. *)
Theorem re_sub_dash_inserts (p : string) :
  without_dashes (re_sub_dash p) = without_dashes p /\
  String.length (re_sub_dash p) = String.length p + dash_matches p /\
  dash_matches (re_sub_dash p) = dash_matches p.
Proof.
  induction p as [| c | c c' r IHr IHc] using string_pair_ind.
  - auto.
  - simpl. destruct (Ascii.eqb c dash) eqn:E; simpl; rewrite E; auto.
  - destruct IHr as [W1 [L1 M1]]. destruct IHc as [W2 [L2 M2]].
    destruct (Ascii.eqb c dash) eqn:E.
    + apply Ascii.eqb_eq in E. subst c.
      destruct (Ascii.eqb c' dash) eqn:E'.
      * apply Ascii.eqb_eq in E'. subst c'.
        destruct (re_sub_dash_head r) as [q Hq].
        change (re_sub_dash (String dash (String dash r)))
          with (String dash (re_sub_dash (String dash r))).
        change (dash_matches (String dash (String dash r)))
          with (dash_matches (String dash r)).
        change (without_dashes (String dash (String dash r)))
          with (without_dashes (String dash r)).
        repeat split.
        -- simpl without_dashes at 1. exact W2.
        -- simpl String.length. simpl String.length in L2. lia.
        -- rewrite Hq. rewrite Hq in M2.
           change (dash_matches (String dash (String dash q)))
             with (dash_matches (String dash q)).
           exact M2.
      * assert (R : re_sub_dash (String dash (String c' r))
                    = String dash (String dash (String c' (re_sub_dash r)))).
        { simpl. now rewrite E'. }
        assert (D : dash_matches (String dash (String c' r))
                    = S (dash_matches r)).
        { simpl. now rewrite E'. }
        rewrite R, D. repeat split.
        -- simpl. rewrite E'. now rewrite W1.
        -- simpl. rewrite L1. lia.
        -- simpl. rewrite E'. now rewrite M1.
    + assert (R : re_sub_dash (String c (String c' r))
                  = String c (re_sub_dash (String c' r))).
      { simpl. now rewrite E. }
      assert (D : dash_matches (String c (String c' r))
                  = dash_matches (String c' r)).
      { simpl. now rewrite E. }
      rewrite R, D. repeat split.
      * change (without_dashes (String c (re_sub_dash (String c' r))))
          with (if Ascii.eqb c dash
                then without_dashes (re_sub_dash (String c' r))
                else String c (without_dashes (re_sub_dash (String c' r)))).
        change (without_dashes (String c (String c' r)))
          with (if Ascii.eqb c dash
                then without_dashes (String c' r)
                else String c (without_dashes (String c' r))).
        rewrite E. now rewrite W2.
      * simpl String.length. simpl String.length in L2. lia.
      * simpl dash_matches at 1. rewrite E. exact M2.
Qed.

Lemma re_sub_dash_cons c r :
  re_sub_dash (String c r)
  = if Ascii.eqb c dash then
      match r with
      | EmptyString => String c EmptyString
      | String c' r' =>
          if Ascii.eqb c' dash then String c (re_sub_dash r)
          else String dash (String c (String c' (re_sub_dash r')))
      end
    else String c (re_sub_dash r).
Proof. reflexivity. Qed.

Lemma dash_matches_cons c r :
  dash_matches (String c r)
  = if Ascii.eqb c dash then
      match r with
      | EmptyString => 0
      | String c' r' =>
          if Ascii.eqb c' dash then dash_matches r else S (dash_matches r')
      end
    else dash_matches r.
Proof. reflexivity. Qed.

Lemma re_sub_dash_no_match (p : string) :
  dash_matches p = 0 -> re_sub_dash p = p.
Proof.
  induction p as [| c | c c' r IHr IHc] using string_pair_ind; auto.
  - intros _. rewrite re_sub_dash_cons. now destruct (Ascii.eqb c dash).
  - rewrite (dash_matches_cons c), (re_sub_dash_cons c). cbv beta iota.
    destruct (Ascii.eqb c dash) eqn:E.
    + destruct (Ascii.eqb c' dash) eqn:E'; [|discriminate].
      intros H. f_equal. now apply IHc.
    + intros H. f_equal. now apply IHc.
Qed.

(** X2.  The page substitution leaves a string as it is exactly when the
    string has no match, and it is idempotent on exactly those strings:
    normalizing pages that are already doubled doubles them again. *)
Theorem re_sub_dash_fixed (p : string) :
  (re_sub_dash p = p <-> dash_matches p = 0) /\
  (re_sub_dash (re_sub_dash p) = re_sub_dash p <-> dash_matches p = 0).
Proof.
  destruct (re_sub_dash_inserts p) as [_ [L M]].
  destruct (re_sub_dash_inserts (re_sub_dash p)) as [_ [L' _]].
  split; split; intros H.
  - rewrite H in L. lia.
  - now apply re_sub_dash_no_match.
  - rewrite H in L'. lia.
  - apply re_sub_dash_no_match. now rewrite M.
Qed.

(** X3.  Deleting the whitespace is idempotent, and a string without
    whitespace is left as it is. *)
Theorem re_sub_space_idempotent (s : string) :
  re_sub_space (re_sub_space s) = re_sub_space s /\
  ((forall ch, In ch (list_ascii_of_string s) -> is_space ch = false) ->
   re_sub_space s = s).
Proof.
  split.
  - induction s as [|c r IH]; simpl; auto.
    destruct (is_space c) eqn:E; simpl; auto. now rewrite E, IH.
  - induction s as [|c r IH]; simpl; auto.
    intros H. rewrite (H c) by now left.
    f_equal. apply IH. intros ch I. apply H. now right.
Qed.

Lemma lower_char_idempotent (c : ascii) :
  lower_char (lower_char c) = lower_char c.
Proof.
  destruct c as [[] [] [] [] [] [] [] []]; reflexivity.
Qed.

(** [str.lower] is idempotent. *)
Lemma str_lower_idempotent (s : string) : str_lower (str_lower s) = str_lower s.
Proof.
  induction s as [|c r IH]; simpl; auto.
  now rewrite lower_char_idempotent, IH.
Qed.

End Substitution.

(* ===================================================================== *)
(** * The normalizer, field by field *)
(* ===================================================================== *)

Module Fields.
Import Py Crossref PyFacts MapperFacts NormalizerFacts.

(** Finds a rule in the table. *)
Ltac in_table := simpl; repeat (first [left; reflexivity | right]).

Section WithCollaborators.
Context {ext : Collaborators}.

(** The field of a rule of the table, in the record that is returned. *)
Lemma normalized_get d out kr :
  crossref_data_to_papis_data (VDict d) = Ok out ->
  In kr (table_rules key_conversion) ->
  dict_get out (target kr) = field_of d kr.
Proof.
  destruct (normalizer_fields d) as [out' [Hout [_ Hget]]].
  rewrite Hout. intros [= <-]. apply Hget.
Qed.

(** The rules of the table read the record through the source keys only. *)
Lemma fold_step_ext d d' krs nd :
  (forall kr, In kr krs -> dict_get d (fst kr) = dict_get d' (fst kr)) ->
  fold_left (step d) krs nd = fold_left (step d') krs nd.
Proof.
  revert nd. induction krs as [|kr krs IH]; intros nd H; simpl; auto.
  rewrite IH by (intros kr' I; apply H; now right).
  f_equal. unfold step. rewrite (H kr) by now left. reflexivity.
Qed.

Lemma table_rules_key (t : table) kr :
  In kr (table_rules t) -> In (fst kr) (dict_keys t).
Proof.
  unfold table_rules. intros I. apply in_flat_map in I.
  destruct I as [[k src] [It Im]]. simpl in Im.
  apply in_map_iff in Im. destruct Im as [c [<- _]]. simpl.
  unfold dict_keys. apply (in_map fst) in It. exact It.
Qed.

(** X4.  The fields of a normalized record.  The normalizer returns, on
    every dictionary, a record whose keys are pairwise different, are among
    the fourteen fields of the table, [author] and [ref], and include
    [ref]. *)
Theorem normalized_vocabulary (d : pydict) :
  exists out,
    crossref_data_to_papis_data (VDict d) = Ok out /\
    NoDup (dict_keys out) /\
    (forall k, In k (dict_keys out) ->
       In k [ "doi"; "url"; "author_list"; "journal"; "issue"; "language";
              "pages"; "year"; "month"; "publisher"; "citations"; "title";
              "type"; "volume"; "author"; "ref" ]) /\
    dict_mem out "ref" = true.
Proof.
  destruct (normalizer_fields d) as [out [Hout [Hnodup _]]].
  destruct (normalizer_on_dict d) as [nd [_ [Hout' [_ [_ Href]]]]].
  exists out. repeat split; auto.
  - intros k Ik.
    destruct (normalizer_keys d out k Hout Ik) as [->|[->|[kr [Ikr [_ <-]]]]].
    + in_table.
    + in_table.
    + apply (in_map target) in Ikr. rewrite key_conversion_targets in Ikr.
      rewrite <- (app_nil_r [ "doi"; "url"; "author_list"; "journal"; "issue";
                              "language"; "pages"; "year"; "month";
                              "publisher"; "citations"; "title"; "type";
                              "volume" ]) in Ikr.
      apply in_app_or in Ikr. destruct Ikr as [I|[]].
      change (In (target kr)
                ([ "doi"; "url"; "author_list"; "journal"; "issue";
                   "language"; "pages"; "year"; "month"; "publisher";
                   "citations"; "title"; "type"; "volume" ]
                 ++ ["author"; "ref"])).
      apply in_or_app. now left.
  - rewrite Hout in Hout'. injection Hout' as ->.
    unfold dict_mem.
    rewrite <- (dict_set_fresh nd "ref" (VStr (ref_of nd)) Href).
    now rewrite dict_get_set_eq.
Qed.

(** X5.  Source keys that the table does not name are not read: two
    records that agree on the thirteen source keys of the table have the same
    normalized record. *)
Theorem foreign_keys_ignored (d d' : pydict) :
  (forall k, In k (dict_keys key_conversion) -> dict_get d k = dict_get d' k) ->
  crossref_data_to_papis_data (VDict d)
  = crossref_data_to_papis_data (VDict d').
Proof.
  intros H. unfold crossref_data_to_papis_data.
  rewrite !convert_loop_dict.
  rewrite (fold_step_ext d d'); auto.
  intros kr I. apply H. now apply table_rules_key.
Qed.

(** X6.  A record without any source key of the table, the empty record
    among them, is normalized to the one field [ref], computed on the empty
    record. *)
Theorem nothing_to_map (d : pydict) :
  (forall k, In k (dict_keys key_conversion) -> dict_get d k = None) ->
  crossref_data_to_papis_data (VDict d) = Ok [("ref", VStr (ref_of []))].
Proof.
  intros H. unfold crossref_data_to_papis_data.
  rewrite convert_loop_dict.
  rewrite (fold_step_ext d []).
  - reflexivity.
  - intros kr I. rewrite H by now apply table_rules_key. reflexivity.
Qed.

(** X7.  The six source keys without action are copied, whatever their
    value is: [DOI] to [doi], [URL] to [url], and [issue], [language],
    [publisher], [volume] under their own names; an absent source key
    leaves the field absent. *)
Theorem copied_fields (d : pydict) :
  exists out,
    crossref_data_to_papis_data (VDict d) = Ok out /\
    forall source field,
      In (source, field)
         [ ("DOI", "doi"); ("URL", "url"); ("issue", "issue");
           ("language", "language"); ("publisher", "publisher");
           ("volume", "volume") ] ->
      dict_get out field = dict_get d source.
Proof.
  destruct (normalizer_fields d) as [out [Hout [_ Hget]]].
  exists out. split; [exact Hout|].
  assert (G : forall source key,
            In (source, {| rule_key := key; rule_action := None |})
               (table_rules key_conversion) ->
            dict_get out (papis_key_of source
                            {| rule_key := key; rule_action := None |})
            = dict_get d source).
  { intros source key I.
    transitivity (field_of d (source,
                              {| rule_key := key; rule_action := None |})).
    - exact (Hget _ I).
    - unfold field_of, papis_val_of. simpl.
      now destruct (dict_get d source). }
  intros source field I. simpl in I.
  destruct I as [E|[E|[E|[E|[E|[E|[]]]]]]]; injection E as <- <-.
  - apply (G "DOI" (Some "doi")). in_table.
  - apply (G "URL" (Some "url")). in_table.
  - apply (G "issue" None). in_table.
  - apply (G "language" None). in_table.
  - apply (G "publisher" None). in_table.
  - apply (G "volume" None). in_table.
Qed.

(** X8.  The type.  A string under [type] is translated by
    [type_converter]; a string that the converter does not know leaves the
    record without the field [type]. *)
Theorem type_field (d : pydict) (t : string) :
  dict_get d "type" = Some (VStr t) ->
  exists out,
    crossref_data_to_papis_data (VDict d) = Ok out /\
    dict_get out "type" = option_map VStr (dict_get type_converter t).
Proof.
  intros H. destruct (normalizer_fields d) as [out [Hout [_ Hget]]].
  exists out. split; [exact Hout|].
  transitivity (field_of d ("type", {| rule_key := Some "type";
                                       rule_action := Some action_type |})).
  - apply (Hget ("type", {| rule_key := Some "type";
                            rule_action := Some action_type |})). in_table.
  - unfold field_of, papis_val_of. cbn [fst snd rule_action]. rewrite H.
    unfold action_type. now destruct (dict_get type_converter t).
Qed.

Lemma mapM_strings (ss : list string) :
  mapM (fun x => match x with
                 | VStr s => Ok s
                 | _ => Raise TypeError
                 end) (map VStr ss) = Ok ss.
Proof.
  induction ss as [|s ss IH]; simpl; auto. now rewrite IH.
Qed.

(** X9.  The title.  A list of strings under [title] is joined with single
    spaces; a string under [title] is iterated character by character, so
    that its characters come out separated by spaces. *)
Theorem title_field (d : pydict) :
  exists out,
    crossref_data_to_papis_data (VDict d) = Ok out /\
    (forall ss, dict_get d "title" = Some (VList (map VStr ss)) ->
                dict_get out "title" = Some (VStr (str_join " " ss))) /\
    (forall s, dict_get d "title" = Some (VStr s) ->
               dict_get out "title" = Some (VStr (str_join " " (chars s)))).
Proof.
  destruct (normalizer_fields d) as [out [Hout [_ Hget]]].
  exists out. split; [exact Hout|].
  assert (G : dict_get out "title"
              = field_of d ("title", {| rule_key := Some "title";
                                        rule_action := Some action_title |})).
  { apply (Hget ("title", {| rule_key := Some "title";
                             rule_action := Some action_title |})). in_table. }
  split.
  - intros ss H. rewrite G. unfold field_of, papis_val_of.
    cbn [fst snd rule_action]. rewrite H. unfold action_title.
    cbn [py_iter bind]. now rewrite mapM_strings.
  - intros s H. rewrite G. unfold field_of, papis_val_of.
    cbn [fst snd rule_action]. rewrite H. unfold action_title.
    cbn [py_iter bind]. now rewrite mapM_strings.
Qed.

(** X10.  The date.  When the first entry of [date-parts] under
    [published-print] is a list, [year] is its first element and [month] its
    second, each left out when the list is too short: a date that is a year
    alone gives a record with [year] and without [month]. *)
Theorem date_fields (d pp : pydict) (first more : list value) :
  dict_get d "published-print" = Some (VDict pp) ->
  dict_get pp "date-parts" = Some (VList (VList first :: more)) ->
  exists out,
    crossref_data_to_papis_data (VDict d) = Ok out /\
    dict_get out "year" = nth_error first 0 /\
    dict_get out "month" = nth_error first 1.
Proof.
  intros H P. destruct (normalizer_fields d) as [out [Hout [_ Hget]]].
  exists out. split; [exact Hout|]. split.
  - transitivity (field_of d ("published-print",
                              {| rule_key := Some "year";
                                 rule_action := Some action_year |})).
    + apply (Hget ("published-print",
                    {| rule_key := Some "year";
                       rule_action := Some action_year |})). in_table.
    + unfold field_of, papis_val_of. cbn [fst snd rule_action]. rewrite H.
      unfold action_year, date_part. cbn [py_get]. rewrite P.
      cbn [bind py_getitem_int nth_error].
      now destruct first.
  - transitivity (field_of d ("published-print",
                              {| rule_key := Some "month";
                                 rule_action := Some action_month |})).
    + apply (Hget ("published-print",
                    {| rule_key := Some "month";
                       rule_action := Some action_month |})). in_table.
    + unfold field_of, papis_val_of. cbn [fst snd rule_action]. rewrite H.
      unfold action_month, date_part. cbn [py_get]. rewrite P.
      cbn [bind py_getitem_int nth_error].
      now destruct first as [|y [|m rest]].
Qed.

(** X11.  The journal.  A list under [container-title] gives its first
    element as [journal]; the empty list leaves the record without
    [journal]. *)
Theorem journal_field (d : pydict) (titles : list value) :
  dict_get d "container-title" = Some (VList titles) ->
  exists out,
    crossref_data_to_papis_data (VDict d) = Ok out /\
    dict_get out "journal" = hd_error titles.
Proof.
  intros H. destruct (normalizer_fields d) as [out [Hout [_ Hget]]].
  exists out. split; [exact Hout|].
  transitivity (field_of d ("container-title",
                            {| rule_key := Some "journal";
                               rule_action := Some action_container_title |})).
  - apply (Hget ("container-title",
                  {| rule_key := Some "journal";
                     rule_action := Some action_container_title |})). in_table.
  - unfold field_of, papis_val_of. cbn [fst snd rule_action]. rewrite H.
    unfold action_container_title. now destruct titles.
Qed.

Lemma action_author_dicts (ds : list pydict) :
  action_author (VList (map VDict ds)) = Ok (VList (map given_family ds)).
Proof.
  unfold action_author. cbn [py_iter bind].
  assert (G : mapM (fun a =>
                      given <- py_get a "given" ;;
                      family <- py_get a "family" ;;
                      Ok (VDict [("given", given); ("family", family)]))
                   (map VDict ds)
              = Ok (map given_family ds)).
  { induction ds as [|a ds IH]; auto.
    cbn [map mapM]. rewrite IH. unfold given_family, py_get.
    destruct (dict_get a "given"); destruct (dict_get a "family");
      reflexivity. }
  now rewrite G.
Qed.

(** X12.  The authors.  The normalized record has [author] exactly when it
    has [author_list].  For a list of dictionaries under [author], the field
    [author_list] holds for each of them its [given] and [family] alone
    ([None] for a missing one), in the same order, and [author] is their
    formatted names joined by the configured separator. *)
Theorem author_fields (d : pydict) :
  exists out,
    crossref_data_to_papis_data (VDict d) = Ok out /\
    dict_mem out "author" = dict_mem out "author_list" /\
    forall ds,
      dict_get d "author" = Some (VList (map VDict ds)) ->
      dict_get out "author_list" = Some (VList (map given_family ds)) /\
      dict_get out "author"
      = Some (VStr (str_join (config_get "multiple-authors-separator")
                      (map (str_format_au
                              (config_get "multiple-authors-format"))
                           (map given_family ds)))).
Proof.
  destruct (normalizer_on_dict d) as [nd [Hnd [Hout [Hget [Hkeys Href]]]]].
  exists (nd ++ [("ref", VStr (ref_of nd))]). split; [exact Hout|].
  rewrite <- (dict_set_fresh nd "ref" (VStr (ref_of nd)) Href).
  rewrite convert_loop_dict in Hnd. unfold bind in Hnd. fold (mapped d) in Hnd.
  assert (Hal : dict_get nd "author_list" = dict_get (mapped d) "author_list").
  { transitivity (field_of d ("author",
                              {| rule_key := Some "author_list";
                                 rule_action := Some action_author |})).
    - apply (Hget ("author", {| rule_key := Some "author_list";
                                rule_action := Some action_author |})).
      in_table.
    - symmetry.
      apply (mapped_get d ("author", {| rule_key := Some "author_list";
                                        rule_action := Some action_author |})).
      in_table. }
  split.
  - unfold dict_mem. rewrite !dict_get_set_ne by discriminate.
    rewrite Hal. unfold derive_author in Hnd.
    destruct (dict_get (mapped d) "author_list") as [al|] eqn:E.
    + destruct (mapped_author_list d al E) as [l ->].
      cbn [py_iter bind] in Hnd. injection Hnd as <-.
      now rewrite dict_get_set_eq.
    + injection Hnd as <-. rewrite mapped_get_other; auto.
      rewrite key_conversion_targets. simpl. intros I.
      repeat (destruct I as [I|I]; [discriminate|]). exact I.
  - intros ds H.
    assert (F : dict_get (mapped d) "author_list"
                = Some (VList (map given_family ds))).
    { transitivity (field_of d ("author",
                                {| rule_key := Some "author_list";
                                   rule_action := Some action_author |})).
      - apply (mapped_get d ("author",
                             {| rule_key := Some "author_list";
                                rule_action := Some action_author |})).
        in_table.
      - unfold field_of, papis_val_of. cbn [fst snd rule_action].
        rewrite H. now rewrite action_author_dicts. }
    rewrite !dict_get_set_ne by discriminate. split.
    + now rewrite Hal.
    + unfold derive_author in Hnd. rewrite F in Hnd.
      cbn [py_iter bind] in Hnd. injection Hnd as <-.
      now rewrite dict_get_set_eq.
Qed.

Lemma dict_keys_set_in {V : Type} (l : list (string * V)) k v x :
  In x (dict_keys (dict_set l k v)) -> x = k \/ In x (dict_keys l).
Proof.
  induction l as [|[k' v'] r IH]; simpl.
  - intros [<-|[]]. now left.
  - destruct (String.eqb k' k); simpl; intros [<-|I]; auto.
    destruct (IH I); auto.
Qed.

(** The comprehension over keys of the dictionary returns, and its keys
    are lowered keys. *)
Lemma lower_keys_returns (c : pydict) (keys : list string) (acc : pydict) :
  (forall k, In k keys -> In k (dict_keys c)) ->
  exists e,
    lower_keys c keys acc = Ok e /\
    forall k, In k (dict_keys e) ->
      In k (dict_keys acc) \/ exists k0, In k0 keys /\ k = str_lower k0.
Proof.
  revert acc. induction keys as [|key keys IH]; intros acc H; simpl.
  - exists acc. auto.
  - unfold dict_getitem.
    destruct (dict_get c key) as [v|] eqn:E.
    + cbn [bind].
      destruct (IH (dict_set acc (str_lower key) v)) as [e [He Hk]].
      { intros k I. apply H. now right. }
      exists e. split; [exact He|].
      intros k I. destruct (Hk k I) as [J|[k0 [J ->]]].
      * apply dict_keys_set_in in J. destruct J as [->|J]; eauto.
      * eauto.
    + exfalso. apply dict_get_none_keys in E. apply E. apply H. now left.
Qed.

(** X13.  The citations.  When the iteration of a set yields elements of
    the set only, a list of dictionaries under [reference] gives under
    [citations] a list of as many dictionaries, in the same order; every key
    of a citation is in lower case and is the lowered form of a key of its
    reference other than [key] and [doi-asserted-by]. *)
Theorem citations_field (d : pydict) (cs : list pydict) :
  (forall l k, In k (set_iter l) -> In k l) ->
  dict_get d "reference" = Some (VList (map VDict cs)) ->
  exists out rs,
    crossref_data_to_papis_data (VDict d) = Ok out /\
    dict_get out "citations" = Some (VList (map VDict rs)) /\
    Forall2 lowered_from cs rs.
Proof.
  intros Hset H. destruct (normalizer_fields d) as [out [Hout [_ Hget]]].
  assert (A : exists rs,
             action_reference (VList (map VDict cs))
             = Ok (VList (map VDict rs)) /\
             Forall2 lowered_from cs rs).
  { clear H. unfold action_reference. cbn [py_iter bind].
    induction cs as [|c cs IH].
    - exists []. split; [reflexivity | constructor].
    - destruct IH as [rs [Hrs HF]].
      destruct (lower_keys_returns c
                  (set_iter
                     (filter
                        (fun k => negb (str_mem k ["key"; "doi-asserted-by"]))
                        (dict_keys c))) [])
        as [e [He Hk]].
      { intros k I. apply Hset in I. apply filter_In in I. tauto. }
      exists (e :: rs). split.
      + cbn [map mapM]. rewrite He. cbn [bind].
        match type of Hrs with
        | bind ?m _ = _ => destruct m as [r|] eqn:Em; [|discriminate]
        end.
        cbn [bind] in Hrs. injection Hrs as ->. reflexivity.
      + constructor; auto.
        intros k I. destruct (Hk k I) as [[]|[k0 [I0 ->]]].
        split; [apply Substitution.str_lower_idempotent|].
        apply Hset in I0. apply filter_In in I0. destruct I0 as [I0 N].
        exists k0. repeat split; auto.
        * intros ->. discriminate.
        * intros ->. discriminate. }
  destruct A as [rs [Hrs HF]].
  exists out, rs. split; [exact Hout|]. split; [|exact HF].
  transitivity (field_of d ("reference",
                            {| rule_key := Some "citations";
                               rule_action := Some action_reference |})).
  - apply (Hget ("reference", {| rule_key := Some "citations";
                                 rule_action := Some action_reference |})).
    in_table.
  - unfold field_of, papis_val_of. cbn [fst snd rule_action]. rewrite H.
    now rewrite Hrs.
Qed.

End WithCollaborators.

End Fields.

(* ===================================================================== *)
(** * [get_data] and [doi_to_data] *)
(* ===================================================================== *)

Module Retrieval.
Import Py Crossref PyFacts MapperFacts NormalizerFacts.

Section WithCollaborators.
Context {ext : Collaborators}.

(** X14.  The keyword arguments of the query.  Every argument that is passed
    on has a true value, so an absent, empty or zero parameter is not sent;
    without DOIs the query asks for [sort='relevance'] and sends no [ids];
    with DOIs it sends them as [ids] and asks for no order. *)
Theorem kwargs_shape (query author title : value) (dois : list value)
    (max_results : value) :
  (forall k v,
      In (k, v) (get_data_kwargs query author title dois max_results) ->
      truthy v = true) /\
  (dois = [] ->
   dict_get (get_data_kwargs query author title dois max_results) "sort"
   = Some (VStr "relevance") /\
   dict_get (get_data_kwargs query author title dois max_results) "ids"
   = None) /\
  (dois <> [] ->
   dict_get (get_data_kwargs query author title dois max_results) "sort"
   = None /\
   dict_get (get_data_kwargs query author title dois max_results) "ids"
   = Some (VList dois)).
Proof.
  unfold get_data_kwargs. cbn [filter snd].
  destruct (truthy query) eqn:Q; destruct (truthy author) eqn:A;
    destruct (truthy title) eqn:T; destruct (truthy max_results) eqn:M;
    destruct dois as [|doi dois]; cbn [truthy];
    (split; [|split]);
    try (intros k v I; simpl in I;
         repeat (destruct I as [I|I]; [injection I as <- <-; auto|]);
         now destruct I);
    try (intros _; split; reflexivity);
    try (intros N; congruence).
Qed.

(** The normalizer returns on every dictionary of a list. *)
Lemma mapM_normalizer_dicts (ds : list pydict) :
  exists recs,
    mapM crossref_data_to_papis_data (map VDict ds) = Ok recs /\
    Forall2 (fun d rec => crossref_data_to_papis_data (VDict d) = Ok rec)
            ds recs.
Proof.
  induction ds as [|d ds [recs [Hr HF]]].
  - exists []. split; [reflexivity | constructor].
  - destruct (normalizer_on_dict d) as [nd [_ [Hout _]]].
    eexists (_ :: recs). split.
    + cbn [map mapM]. rewrite Hout, Hr. reflexivity.
    + constructor; auto.
Qed.

(** X15.  The records of an answer.  When the message of the answer has
    [items] that are dictionaries, [get_data] returns their normalized
    records, one for each and in the same order; when the message has no
    [items], the message itself is normalized and [get_data] returns that
    one record. *)
Theorem get_data_records (query author title : value) (dois : list value)
    (max_results : value) (r m : pydict) :
  _get_crossref_works (get_data_kwargs query author title dois max_results)
  = Ok (VDict r) ->
  dict_get r "message" = Some (VDict m) ->
  (forall ds,
      dict_get m "items" = Some (VList (map VDict ds)) ->
      exists recs,
        get_data query author title dois max_results = Ok recs /\
        Forall2 (fun d rec => crossref_data_to_papis_data (VDict d) = Ok rec)
                ds recs) /\
  (dict_get m "items" = None ->
   exists rec,
     get_data query author title dois max_results = Ok [rec] /\
     crossref_data_to_papis_data (VDict m) = Ok rec).
Proof.
  intros W Hm. unfold get_data. rewrite W, Hm. split.
  - intros ds Hi. rewrite Hi. cbn [py_iter bind].
    apply mapM_normalizer_dicts.
  - intros Hi. rewrite Hi. cbn [py_iter bind mapM].
    destruct (normalizer_on_dict m) as [nd [_ [Hout _]]].
    rewrite Hout. eexists. split; reflexivity.
Qed.




(** X17.  A DOI without answer.  When the crossref client raises for the
    DOI, or answers with a dictionary without ['message'], [doi_to_data]
    returns [None]: the exception of the client does not reach the caller,
    and no [ValueError] is raised, whatever the docstring says.  The client
    is asked with the cleaned DOI as [ids] and nothing else. *)
Theorem doi_to_data_without_answer (doi : string) :
  (exists e,
      _get_crossref_works [("ids", VList [get_clean_doi doi])] = Raise e) \/
  (exists r,
      _get_crossref_works [("ids", VList [get_clean_doi doi])]
      = Ok (VDict r) /\
      dict_get r "message" = None) ->
  get_data_kwargs (VStr "") (VStr "") (VStr "") [get_clean_doi doi] (VInt 0)
  = [("ids", VList [get_clean_doi doi])] /\
  doi_to_data doi = Ok None.
Proof.
  intros F. split; [reflexivity|].
  unfold doi_to_data, get_data.
  change (get_data_kwargs (VStr "") (VStr "") (VStr "") [get_clean_doi doi]
                          (VInt 0))
    with [("ids", VList [get_clean_doi doi])].
  destruct F as [[e E]|[r [E M]]]; rewrite E; [reflexivity|].
  now rewrite M.
Qed.

End WithCollaborators.

End Retrieval.

(* ===================================================================== *)
(** * The stages [pick] and [cmd], and the loop of [citations] *)
(* ===================================================================== *)

Module Chain.
Import Py Crossref Explore PyFacts StageFacts.

Lemma list_getitem_raises {A : Type} (l : list A) (i : Z) (e : exn) :
  list_getitem l i = Raise e -> e = IndexError.
Proof.
  unfold list_getitem.
  destruct (_ && _)%bool; [|now intros [= <-]].
  destruct (nth_error l _); [discriminate | now intros [= <-]].
Qed.

(** The indices that a list does not have. *)
Lemma list_getitem_out_of_range {A : Type} (l : list A) (n : Z) :
  (Z.of_nat (length l) < n \/ n <= - Z.of_nat (length l))%Z ->
  list_getitem l (n - 1) = Raise IndexError.
Proof.
  intros H. unfold list_getitem.
  destruct (n - 1 <? 0)%Z eqn:E.
  - apply Z.ltb_lt in E.
    replace (0 <=? Z.of_nat (length l) + (n - 1))%Z with false
      by (symmetry; apply Z.leb_gt; lia).
    reflexivity.
  - apply Z.ltb_ge in E.
    replace (n - 1 <? Z.of_nat (length l))%Z with false
      by (symmetry; apply Z.ltb_ge; lia).
    now rewrite andb_false_r.
Qed.

Section WithServices.
Context {ext : Collaborators} {Document : Type} {srv : Services Document}.

(** X18.  What [pick] leaves.  When [pick] returns, the accumulator has at
    most one document and nothing has been written; [pick] raises only with
    an index, only [IndexError], and then the context is as it was. *)
Theorem pick_outcomes (number : option Z) (ctx : context) :
  match pick number ctx with
  | (Ok _, ctx') => length (documents ctx') <= 1 /\ trace ctx' = trace ctx
  | (Raise e, ctx') => e = IndexError /\ ctx' = ctx /\ number <> None
  end.
Proof.
  unfold pick, bindM, get_documents, lift, ret, set_documents.
  destruct number as [n|].
  - destruct (list_getitem (documents ctx) (n - 1)) as [d|e] eqn:G.
    + cbn. destruct (pick_doc [d]); simpl; auto.
    + apply list_getitem_raises in G. repeat split; auto. discriminate.
  - cbn. destruct (pick_doc (documents ctx)); simpl; auto.
Qed.

(** X19.  An index out of range.  With an index above the length of the
    accumulator, or at most its negation, [pick] raises [IndexError] and
    leaves the context as it was; on an empty accumulator every index does
    so. *)
Theorem pick_out_of_range (ctx : context) (n : Z) :
  (Z.of_nat (length (documents ctx)) < n \/
   n <= - Z.of_nat (length (documents ctx)))%Z ->
  pick (Some n) ctx = (Raise IndexError, ctx).
Proof.
  intros H. unfold pick, bindM, get_documents, lift.
  now rewrite list_getitem_out_of_range.
Qed.

(** X20.  An index that is zero or negative counts from the end: with
    [-len < n <= 0] the candidate is the document at position
    [len + n - 1], so that [0] selects the last document. *)
Theorem pick_from_end (ctx : context) (n : Z) (d : Document) :
  (- Z.of_nat (length (documents ctx)) < n <= 0)%Z ->
  nth_error (documents ctx)
            (Z.to_nat (Z.of_nat (length (documents ctx)) + n - 1)) = Some d ->
  pick_doc [d] = Some d ->
  pick (Some n) ctx = (Ok tt, {| documents := [d]; trace := trace ctx |}).
Proof.
  intros Hn Hd Hp.
  unfold pick, bindM, get_documents, lift, ret, set_documents, list_getitem.
  replace (n - 1 <? 0)%Z with true by (symmetry; apply Z.ltb_lt; lia).
  replace (Z.of_nat (length (documents ctx)) + (n - 1))%Z
    with (Z.of_nat (length (documents ctx)) + n - 1)%Z by lia.
  replace ((0 <=? Z.of_nat (length (documents ctx)) + n - 1)
           && (Z.of_nat (length (documents ctx)) + n - 1
               <? Z.of_nat (length (documents ctx))))%Z with true.
  - rewrite Hd. cbn. now rewrite Hp.
  - symmetry. apply andb_true_intro. split.
    + apply Z.leb_le. lia.
    + apply Z.ltb_lt. lia.
Qed.

(** The loop of [cmd] when every command so far can be split and called. *)
Lemma cmd_loop_calls (command : string) (docs : list Document)
    (argvs : list (list string)) (rest : list Document) (ctx : context) :
  Forall2 (fun doc argv =>
             shlex_split (format_command command doc) = Ok argv /\
             exists rc, call argv = Ok rc) docs argvs ->
  cmd_loop command (docs ++ rest) ctx
  = cmd_loop command rest
      {| documents := documents ctx;
         trace := trace ctx ++ map Called argvs |}.
Proof.
  intros F. revert ctx.
  induction F as [|doc argv docs argvs [Hs [rc Hc]] F IH]; intros ctx.
  - simpl. rewrite app_nil_r. now destruct ctx.
  - cbn [app cmd_loop]. unfold bindM at 1, lift at 1. rewrite Hs.
    unfold bindM at 1, lift at 1. rewrite Hc.
    unfold bindM at 1, emit. rewrite IH. cbn [documents trace map].
    now rewrite <- app_assoc.
Qed.

(** X21.  The calls of [cmd].  When the command of every document can be
    split and called, [cmd] returns after one call for each document, in
    the order of the accumulator, and nothing else is written; on an empty
    accumulator it returns without a call. *)
Theorem cmd_calls (command : string) (ctx : context)
    (argvs : list (list string)) :
  Forall2 (fun doc argv =>
             shlex_split (format_command command doc) = Ok argv /\
             exists rc, call argv = Ok rc) (documents ctx) argvs ->
  cmd command ctx
  = (Ok tt, {| documents := documents ctx;
               trace := trace ctx ++ map Called argvs |}).
Proof.
  intros F. unfold cmd, bindM, get_documents.
  rewrite <- (app_nil_r (documents ctx)) at 1.
  now rewrite (cmd_loop_calls command (documents ctx) argvs [] ctx F).
Qed.

(** X22.  A command that fails.  When the command of a document cannot be
    split, or its call raises, [cmd] raises that exception: the commands of
    the documents before it have been called, those of the documents after
    it are not, and the accumulator is as it was. *)
Theorem cmd_stops (command : string) (ctx : context)
    (before after : list Document) (doc : Document)
    (argvs : list (list string)) (e : exn) :
  documents ctx = before ++ doc :: after ->
  Forall2 (fun doc argv =>
             shlex_split (format_command command doc) = Ok argv /\
             exists rc, call argv = Ok rc) before argvs ->
  (shlex_split (format_command command doc) = Raise e \/
   exists argv, shlex_split (format_command command doc) = Ok argv /\
                call argv = Raise e) ->
  cmd command ctx
  = (Raise e, {| documents := documents ctx;
                 trace := trace ctx ++ map Called argvs |}).
Proof.
  intros D F B. unfold cmd, bindM, get_documents. rewrite D at 1.
  rewrite (cmd_loop_calls command before argvs (doc :: after) ctx F).
  cbn [cmd_loop]. unfold bindM, lift.
  destruct B as [Hs|[argv [Hs Hc]]]; rewrite Hs; [|rewrite Hc]; reflexivity.
Qed.

(** X23.  A query without result followed by [pick] with an index.  When
    the crossref client fails, the [crossref] stage adds nothing, and a
    [pick] with an index that follows it at the head of the chain raises
    [IndexError], whatever the index: the stages after it do not run and
    nothing is written. *)
Theorem empty_then_indexed_pick (query author title max : value) (n : Z)
    (rest : list stage) :
  retrieval_fails (get_data_kwargs query author title [] max) ->
  explore (StCrossref query author title max :: StPick (Some n) :: rest)
  = (Raise IndexError, cli).
Proof.
  intros F.
  assert (G : get_data query author title [] max = Ok []).
  { unfold get_data. destruct F as [[e E]|[r [E M]]]; rewrite E; auto.
    now rewrite M. }
  assert (P : list_getitem (@nil Document) (n - 1) = Raise IndexError).
  { apply list_getitem_out_of_range. simpl. lia. }
  unfold explore. cbn [run_stages run_stage].
  unfold bindM at 1. unfold crossref, bindM at 1, lift. rewrite G.
  cbn [map add_documents documents cli app trace].
  unfold bindM at 1, pick, bindM at 1, get_documents.
  cbn [documents]. unfold bindM, lift. now rewrite P.
Qed.



End WithServices.

End Chain.

(* ===================================================================== *)
(** * The other producers and the DOIs of [citations] *)
(* ===================================================================== *)

Module SourceFacts.
Import Py Crossref Explore Sources PyFacts.

Lemma context_eta {Document : Type} (ctx : @context Document) :
  {| documents := documents ctx ++ []; trace := trace ctx |} = ctx.
Proof. rewrite app_nil_r. now destruct ctx. Qed.

Section WithAdapters.
Context {ext : Collaborators} {Document : Type} {srv : Services Document}
        {ada : Adapters Document}.

(** A stage that fetches and then adds: it adds or leaves the context. *)
Lemma fetch_then_add (r : result (list pydict)) (ctx : context) :
  exists added,
    documents (snd (bindM (lift r)
                      (fun data => add_documents (map from_data data)) ctx))
    = documents ctx ++ added /\
    trace (snd (bindM (lift r)
                  (fun data => add_documents (map from_data data)) ctx))
    = trace ctx.
Proof.
  unfold bindM, lift. destruct r as [data|e]; simpl.
  - eauto.
  - exists []. now rewrite app_nil_r.
Qed.

(** X25.  Producers only add.  Each of the eight producers, whether it
    returns or raises, leaves an accumulator that starts with the documents
    it found, in their order, and writes nothing. *)
Theorem producers_only_add (p : producer) (ctx : context) :
  exists added,
    documents (snd (run_producer p ctx)) = documents ctx ++ added /\
    trace (snd (run_producer p ctx)) = trace ctx.
Proof.
  destruct p; cbn [run_producer].
  - apply fetch_then_add.
  - unfold libgen, bindM, lift, libgen_ids.
    repeat match goal with
           | |- context [truthy ?x] => destruct (truthy x)
           | |- context [libgen_search ?a ?b] => destruct (libgen_search a b)
           end;
      cbn [bind add_documents snd documents trace];
      try (eexists; split; reflexivity);
      exists []; now rewrite app_nil_r.
  - apply fetch_then_add.
  - unfold isbnplus, add_documents. simpl. eauto.
  - apply fetch_then_add.
  - apply fetch_then_add.
  - apply fetch_then_add.
  - unfold lib, bindM, lift, ret, add_documents.
    destruct (truthy doc_folder).
    + destruct (from_folder doc_folder) as [doc|e]; simpl.
      * destruct (db_query library query) as [docs|e]; simpl.
        -- exists (doc :: docs).
           now rewrite <- app_assoc.
        -- eauto.
      * exists []. now rewrite app_nil_r.
    + destruct (db_query library query) as [docs|e]; simpl.
      * eauto.
      * exists []. now rewrite app_nil_r.
Qed.

(** X26.  [isbnplus] never raises: it returns with the records of the
    adapter added, and when the adapter raises anything at all it returns
    with the context as it found it. *)
Theorem isbnplus_never_raises (query author title : value) (ctx : context) :
  exists ctx',
    isbnplus query author title ctx = (Ok tt, ctx') /\
    (forall data, isbnplus_get_data query author title = Ok data ->
       documents ctx' = documents ctx ++ map from_data data) /\
    (forall e, isbnplus_get_data query author title = Raise e -> ctx' = ctx).
Proof.
  unfold isbnplus, add_documents. eexists. split; [reflexivity|]. split.
  - intros data H. now rewrite H.
  - intros e H. rewrite H. simpl. apply context_eta.
Qed.

(** X27.  [libgen] with its three options.  The author is searched first,
    then the ISBN, then the title, and the identifiers are looked up in that
    order; when the lookup raises, the stage still returns, with the
    accumulator as it was. *)
Theorem libgen_searches (author title isbn : value)
    (by_author by_isbn by_title : list value) (ctx : context) :
  truthy author = true -> truthy isbn = true -> truthy title = true ->
  libgen_search (py_ascii author) "author" = Ok by_author ->
  libgen_search (py_ascii isbn) "isbn" = Ok by_isbn ->
  libgen_search (py_ascii title) "title" = Ok by_title ->
  exists ctx',
    libgen author title isbn ctx = (Ok tt, ctx') /\
    trace ctx' = trace ctx /\
    (forall data,
        libgen_lookup (by_author ++ by_isbn ++ by_title) = Ok data ->
        documents ctx' = documents ctx ++ map from_data data) /\
    (forall e,
        libgen_lookup (by_author ++ by_isbn ++ by_title) = Raise e ->
        documents ctx' = documents ctx).
Proof.
  intros Ta Ti Tt Sa Si St.
  unfold libgen, bindM, lift, libgen_ids.
  rewrite Ta, Sa. cbn [bind app]. rewrite Ti, Si. cbn [bind].
  rewrite Tt, St. cbn [bind]. rewrite <- app_assoc.
  eexists. split; [reflexivity|]. split; [reflexivity|]. split.
  - intros data H. now rewrite H.
  - intros e H. rewrite H. simpl. apply app_nil_r.
Qed.

(** X28.  [lib] with a folder.  The document of the folder is added first
    and the documents of the query after it; when the library cannot be
    queried, the stage raises and the document of the folder has already
    been added. *)
Theorem lib_with_folder (query doc_folder library : value) (doc : Document)
    (ctx : context) :
  truthy doc_folder = true ->
  from_folder doc_folder = Ok doc ->
  (forall docs,
      db_query library query = Ok docs ->
      lib query doc_folder library ctx
      = (Ok tt, {| documents := documents ctx ++ doc :: docs;
                   trace := trace ctx |})) /\
  (forall e,
      db_query library query = Raise e ->
      lib query doc_folder library ctx
      = (Raise e, {| documents := documents ctx ++ [doc];
                     trace := trace ctx |})).
Proof.
  intros T F. unfold lib, bindM, lift, ret, add_documents.
  rewrite T, F. split.
  - intros docs Q. rewrite Q. simpl. now rewrite <- app_assoc.
  - intros e Q. now rewrite Q.
Qed.

End WithAdapters.

(** The DOIs that are found are true values, at most one for a citation. *)
Lemma citation_dois_found (cs : list value) (all : list value) :
  citation_dois cs = Ok all ->
  length all <= length cs /\ forall x, In x all -> truthy x = true.
Proof.
  revert all. induction cs as [|d cs IH]; intros all; simpl.
  - intros [= <-]. split; [auto | intros x []].
  - destruct (py_get d "doi") as [test|e] eqn:G; cbn [bind]; [|discriminate].
    destruct (truthy test) eqn:T.
    + cbn [bind].
      destruct (citation_dois cs) as [dois|e] eqn:C; cbn [bind];
        [|discriminate].
      intros [= <-]. destruct (IH dois eq_refl) as [L H]. split.
      * simpl. lia.
      * intros x [<-|I]; auto.
    + intros H. destruct (IH all H) as [L H']. split; auto.
Qed.

(** X29.  The DOIs that [citations] fetches.  The selection is a prefix of
    the true DOIs of the citations, in their order; with a negative
    [max_citations] it is all of them, otherwise at most [max_citations] of
    them. *)
Theorem select_dois_bounds (cs : list value) (max_citations : Z)
    (dois : list value) :
  select_dois (VList cs) max_citations = Ok dois ->
  exists all,
    citation_dois cs = Ok all /\
    (exists rest, all = dois ++ rest) /\
    length dois <= length cs /\
    (forall x, In x dois -> truthy x = true) /\
    ((max_citations < 0)%Z -> dois = all) /\
    ((0 <= max_citations)%Z ->
     Z.of_nat (length dois) = Z.min max_citations (Z.of_nat (length all))).
Proof.
  unfold select_dois, slice_to. cbn [py_iter bind].
  destruct (citation_dois cs) as [all|e] eqn:C; cbn [bind]; [|discriminate].
  intros [= <-]. destruct (citation_dois_found cs all C) as [L T].
  exists all. split; [reflexivity|]. split; [|split; [|split; [|split]]].
  - eexists. symmetry. apply firstn_skipn.
  - rewrite length_firstn. lia.
  - intros x I. apply T.
    match type of I with
    | In x (firstn ?k all) => rewrite <- (firstn_skipn k all)
    end.
    apply in_or_app. now left.
  - intros N. replace (max_citations <? 0)%Z with true
      by (symmetry; apply Z.ltb_lt; lia).
    rewrite Z.min_id, Nat2Z.id. apply firstn_all.
  - intros N. replace (max_citations <? 0)%Z with false
      by (symmetry; apply Z.ltb_ge; lia).
    rewrite length_firstn. lia.
Qed.

End SourceFacts.

(* ===================================================================== *)
(** * Further runs on concrete records *)
(* ===================================================================== *)

Module MoreRuns.
Import Py Crossref Explore Sources.

(** A relevance score is no source key of the table: Dyson's record with
    and without it is normalized to the same record. *)
Lemma foreign_keys_ignored_run :
  (forall k, In k (dict_keys (@key_conversion Demo.collaborators)) ->
     dict_get (("score", VInt 17) :: Demo.dyson) k = dict_get Demo.dyson k) /\
  @crossref_data_to_papis_data Demo.collaborators
     (VDict (("score", VInt 17) :: Demo.dyson))
  = Ok Demo.dyson_record.
Proof.
  assert (H : forall k,
            In k (dict_keys (@key_conversion Demo.collaborators)) ->
            dict_get (("score", VInt 17) :: Demo.dyson) k
            = dict_get Demo.dyson k).
  { intros k I. simpl in I.
    repeat (destruct I as [<-|I]; [reflexivity|]). destruct I. }
  split; [exact H|].
  rewrite (Fields.foreign_keys_ignored (ext := Demo.collaborators) _ _ H).
  reflexivity.
Defined.

(** A record with a score alone has nothing to map. *)
Lemma nothing_to_map_run :
  (forall k, In k (dict_keys (@key_conversion Demo.collaborators)) ->
     dict_get [("score", VInt 17)] k = None) /\
  @crossref_data_to_papis_data Demo.collaborators (VDict [("score", VInt 17)])
  = Ok [("ref", VStr "")].
Proof.
  assert (H : forall k,
            In k (dict_keys (@key_conversion Demo.collaborators)) ->
            dict_get [("score", VInt 17)] k = None).
  { intros k I. simpl in I.
    repeat (destruct I as [<-|I]; [reflexivity|]). destruct I. }
  split; [exact H|].
  exact (Fields.nothing_to_map (ext := Demo.collaborators) _ H).
Defined.

(** Dyson's journal article is an [article]. *)
Lemma type_field_run :
  dict_get Demo.dyson "type" = Some (VStr "journal-article") /\
  exists out,
    @crossref_data_to_papis_data Demo.collaborators (VDict Demo.dyson)
    = Ok out /\
    dict_get out "type" = Some (VStr "article").
Proof.
  assert (H : dict_get Demo.dyson "type" = Some (VStr "journal-article"))
    by reflexivity.
  split; [exact H|].
  exact (Fields.type_field (ext := Demo.collaborators) Demo.dyson
           "journal-article" H).
Defined.

(** A date that is a year alone: [year] without [month]. *)
Lemma date_fields_run :
  dict_get [("published-print",
             VDict [("date-parts", VList [VList [VInt 1948]])])]
           "published-print"
  = Some (VDict [("date-parts", VList [VList [VInt 1948]])]) /\
  dict_get [("date-parts", VList [VList [VInt 1948]])] "date-parts"
  = Some (VList [VList [VInt 1948]]) /\
  exists out,
    @crossref_data_to_papis_data Demo.collaborators
       (VDict [("published-print",
                VDict [("date-parts", VList [VList [VInt 1948]])])])
    = Ok out /\
    dict_get out "year" = Some (VInt 1948) /\
    dict_get out "month" = None.
Proof.
  split; [reflexivity|]. split; [reflexivity|].
  exact (Fields.date_fields (ext := Demo.collaborators)
           [("published-print",
             VDict [("date-parts", VList [VList [VInt 1948]])])]
           [("date-parts", VList [VList [VInt 1948]])]
           [VInt 1948] [] eq_refl eq_refl).
Defined.

(** An empty list of container titles: no [journal]. *)
Lemma journal_field_run :
  dict_get [("container-title", VList [])] "container-title"
  = Some (VList []) /\
  exists out,
    @crossref_data_to_papis_data Demo.collaborators
       (VDict [("container-title", VList [])]) = Ok out /\
    dict_get out "journal" = None.
Proof.
  split; [reflexivity|].
  exact (Fields.journal_field (ext := Demo.collaborators)
           [("container-title", VList [])] [] eq_refl).
Defined.

(** A reference with the keys [key], [DOI] and [Year]: one citation, with
    lowered keys. *)
Lemma citations_field_run :
  (forall l k, In k (@set_iter Demo.collaborators l) -> In k l) /\
  dict_get [("reference",
             VList (map VDict [[("key", VStr "ref1"); ("DOI", VStr "10.1/a");
                                ("Year", VInt 1949)]]))] "reference"
  = Some (VList (map VDict [[("key", VStr "ref1"); ("DOI", VStr "10.1/a");
                             ("Year", VInt 1949)]])) /\
  exists out rs,
    @crossref_data_to_papis_data Demo.collaborators
       (VDict [("reference",
                VList (map VDict [[("key", VStr "ref1");
                                   ("DOI", VStr "10.1/a");
                                   ("Year", VInt 1949)]]))]) = Ok out /\
    dict_get out "citations" = Some (VList (map VDict rs)) /\
    Forall2 lowered_from
            [[("key", VStr "ref1"); ("DOI", VStr "10.1/a");
              ("Year", VInt 1949)]] rs.
Proof.
  assert (H : forall l k, In k (@set_iter Demo.collaborators l) -> In k l)
    by (intros l k I; exact I).
  split; [exact H|]. split; [reflexivity|].
  exact (Fields.citations_field (ext := Demo.collaborators)
           [("reference",
             VList (map VDict [[("key", VStr "ref1"); ("DOI", VStr "10.1/a");
                                ("Year", VInt 1949)]]))]
           [[("key", VStr "ref1"); ("DOI", VStr "10.1/a");
             ("Year", VInt 1949)]] H eq_refl).
Defined.

(** The answer for Dyson has one item: one record. *)
Lemma get_data_records_run :
  @_get_crossref_works Demo.collaborators
     (get_data_kwargs VNone (VStr "Dyson") VNone [] (VInt 20))
  = Ok (VDict [("status", VStr "ok");
               ("message", VDict [("items", VList [VDict Demo.dyson])])]) /\
  exists recs,
    @get_data Demo.collaborators VNone (VStr "Dyson") VNone [] (VInt 20)
    = Ok recs /\
    Forall2 (fun d rec =>
               @crossref_data_to_papis_data Demo.collaborators (VDict d)
               = Ok rec) [Demo.dyson] recs.
Proof.
  split; [reflexivity|].
  destruct (Retrieval.get_data_records (ext := Demo.collaborators)
              VNone (VStr "Dyson") VNone [] (VInt 20)
              [("status", VStr "ok");
               ("message", VDict [("items", VList [VDict Demo.dyson])])]
              [("items", VList [VDict Demo.dyson])] eq_refl eq_refl)
    as [Hitems _].
  exact (Hitems [Demo.dyson] eq_refl).
Defined.


(** The client is unreachable for an unknown DOI: [None], no exception. *)
Lemma doi_to_data_without_answer_run :
  ((exists e,
       @_get_crossref_works Demo.collaborators
          [("ids", VList [@get_clean_doi Demo.collaborators "10.1000/unknown"])]
       = Raise e) \/
   (exists r,
       @_get_crossref_works Demo.collaborators
          [("ids", VList [@get_clean_doi Demo.collaborators "10.1000/unknown"])]
       = Ok (VDict r) /\
       dict_get r "message" = None)) /\
  @doi_to_data Demo.collaborators "10.1000/unknown" = Ok None.
Proof.
  assert (F : (exists e,
       @_get_crossref_works Demo.collaborators
          [("ids", VList [@get_clean_doi Demo.collaborators "10.1000/unknown"])]
       = Raise e) \/
   (exists r,
       @_get_crossref_works Demo.collaborators
          [("ids", VList [@get_clean_doi Demo.collaborators "10.1000/unknown"])]
       = Ok (VDict r) /\
       dict_get r "message" = None)).
  { left. eexists. reflexivity. }
  split; [exact F|].
  exact (proj2 (Retrieval.doi_to_data_without_answer
                  (ext := Demo.collaborators) "10.1000/unknown" F)).
Defined.

(** The third of two records. *)
Lemma pick_out_of_range_run :
  (Z.of_nat (length (documents Demo.both_found)) < 3 \/
   3 <= - Z.of_nat (length (documents Demo.both_found)))%Z /\
  @pick pydict Demo.services (Some 3%Z) Demo.both_found
  = (Raise IndexError, Demo.both_found).
Proof.
  assert (H : (Z.of_nat (length (documents Demo.both_found)) < 3 \/
               3 <= - Z.of_nat (length (documents Demo.both_found)))%Z)
    by (left; simpl; lia).
  split; [exact H|].
  exact (Chain.pick_out_of_range (srv := Demo.services) Demo.both_found 3%Z H).
Defined.

(** The index 0 picks the last record. *)
Lemma pick_from_end_run :
  (- Z.of_nat (length (documents Demo.both_found)) < 0 <= 0)%Z /\
  nth_error (documents Demo.both_found)
     (Z.to_nat (Z.of_nat (length (documents Demo.both_found)) + 0 - 1))
  = Some Demo.schwinger_record /\
  @pick_doc pydict Demo.services [Demo.schwinger_record]
  = Some Demo.schwinger_record /\
  @pick pydict Demo.services (Some 0%Z) Demo.both_found
  = (Ok tt, {| documents := [Demo.schwinger_record]; trace := [] |}).
Proof.
  assert (H : (- Z.of_nat (length (documents Demo.both_found)) < 0 <= 0)%Z)
    by (simpl; lia).
  split; [exact H|]. split; [reflexivity|]. split; [reflexivity|].
  exact (Chain.pick_from_end (srv := Demo.services) Demo.both_found 0%Z
           Demo.schwinger_record H eq_refl eq_refl).
Defined.

(** One call for each of the two records. *)
Lemma cmd_calls_run :
  Forall2 (fun doc argv =>
             @shlex_split pydict Demo.services
                (@format_command pydict Demo.services "open" doc) = Ok argv /\
             exists rc, @call pydict Demo.services argv = Ok rc)
          (documents Demo.both_found)
          [["open 10.1103/PhysRev.75.486"]; ["open 10.1103/PhysRev.73.416"]] /\
  @cmd pydict Demo.services "open" Demo.both_found
  = (Ok tt, {| documents := [Demo.dyson_record; Demo.schwinger_record];
               trace := [ Called ["open 10.1103/PhysRev.75.486"];
                          Called ["open 10.1103/PhysRev.73.416"] ] |}).
Proof.
  assert (F : Forall2 (fun doc argv =>
             @shlex_split pydict Demo.services
                (@format_command pydict Demo.services "open" doc) = Ok argv /\
             exists rc, @call pydict Demo.services argv = Ok rc)
          (documents Demo.both_found)
          [["open 10.1103/PhysRev.75.486"]; ["open 10.1103/PhysRev.73.416"]]).
  { repeat constructor; exists 0%Z; reflexivity. }
  split; [exact F|].
  exact (Chain.cmd_calls (srv := Demo.services) "open" Demo.both_found _ F).
Defined.

(** The shell refuses the second command: the first has been called. *)
Lemma cmd_stops_run :
  documents Demo.both_found
  = [Demo.dyson_record] ++ Demo.schwinger_record :: [] /\
  @shlex_split pydict Demo.strict_shell
     (@format_command pydict Demo.strict_shell "open" Demo.schwinger_record)
  = Raise ValueError /\
  @cmd pydict Demo.strict_shell "open" Demo.both_found
  = (Raise ValueError,
     {| documents := [Demo.dyson_record; Demo.schwinger_record];
        trace := [Called ["open 10.1103/PhysRev.75.486"]] |}).
Proof.
  assert (F : Forall2 (fun doc argv =>
             @shlex_split pydict Demo.strict_shell
                (@format_command pydict Demo.strict_shell "open" doc)
             = Ok argv /\
             exists rc, @call pydict Demo.strict_shell argv = Ok rc)
          [Demo.dyson_record] [["open 10.1103/PhysRev.75.486"]]).
  { repeat constructor; exists 0%Z; reflexivity. }
  split; [reflexivity|]. split; [reflexivity|].
  exact (Chain.cmd_stops (srv := Demo.strict_shell) "open" Demo.both_found
           [Demo.dyson_record] [] Demo.schwinger_record _ ValueError
           eq_refl F (or_introl eq_refl)).
Defined.

(** Nobody is found, and the first record is asked for. *)
Lemma empty_then_indexed_pick_run :
  @retrieval_fails Demo.collaborators
     (get_data_kwargs VNone (VStr "nobody") VNone [] (VInt 20)) /\
  @explore Demo.collaborators pydict Demo.services
     [ StCrossref VNone (VStr "nobody") VNone (VInt 20); StPick (Some 1%Z);
       StExport "bibtex" None ]
  = (Raise IndexError, {| documents := []; trace := [] |}).
Proof.
  assert (H : @retrieval_fails Demo.collaborators
                (get_data_kwargs VNone (VStr "nobody") VNone [] (VInt 20))).
  { right. eexists. split; reflexivity. }
  split; [exact H|].
  exact (Chain.empty_then_indexed_pick (ext := Demo.collaborators)
           (srv := Demo.services) VNone (VStr "nobody") VNone (VInt 20) 1%Z
           [StExport "bibtex" None] H).
Defined.

(** The identifiers reach the lookup in the order author, ISBN, title. *)
Lemma libgen_searches_run :
  @libgen_search pydict Demo.adapters
     (@py_ascii pydict Demo.adapters (VStr "Dyson")) "author"
  = Ok [VStr "author:'Dyson'"] /\
  exists ctx',
    @libgen pydict Demo.services Demo.adapters
       (VStr "Dyson") (VStr "Disturbing the Universe") (VStr "0465016774")
       {| documents := []; trace := [] |}
    = (Ok tt, ctx') /\
    documents ctx'
    = [[("ids", VList [ VStr "author:'Dyson'"; VStr "isbn:'0465016774'";
                        VStr "title:'Disturbing the Universe'" ])]].
Proof.
  split; [reflexivity|].
  destruct (SourceFacts.libgen_searches (srv := Demo.services)
              (ada := Demo.adapters)
              (VStr "Dyson") (VStr "Disturbing the Universe")
              (VStr "0465016774")
              [VStr "author:'Dyson'"] [VStr "isbn:'0465016774'"]
              [VStr "title:'Disturbing the Universe'"]
              {| documents := []; trace := [] |}
              eq_refl eq_refl eq_refl eq_refl eq_refl eq_refl)
    as [ctx' [Hrun [_ [Hdocs _]]]].
  exists ctx'. split; [exact Hrun|].
  exact (Hdocs _ eq_refl).
Defined.

(** The library is missing: the document of the folder stays. *)
Lemma lib_with_folder_run :
  truthy (VStr "papers/dyson") = true /\
  @from_folder pydict Demo.adapters (VStr "papers/dyson")
  = Ok [("folder", VStr "papers/dyson")] /\
  @db_query pydict Demo.adapters (VStr "missing") (VStr "qed")
  = Raise (OtherError "Exception") /\
  @lib pydict Demo.adapters (VStr "qed") (VStr "papers/dyson") (VStr "missing")
     {| documents := []; trace := [] |}
  = (Raise (OtherError "Exception"),
     {| documents := [[("folder", VStr "papers/dyson")]]; trace := [] |}).
Proof.
  split; [reflexivity|]. split; [reflexivity|]. split; [reflexivity|].
  destruct (SourceFacts.lib_with_folder (ada := Demo.adapters)
              (VStr "qed") (VStr "papers/dyson") (VStr "missing")
              [("folder", VStr "papers/dyson")]
              {| documents := []; trace := [] |} eq_refl eq_refl)
    as [_ Hfail].
  exact (Hfail (OtherError "Exception") eq_refl).
Defined.

(** Of three citations two have a DOI, and one is asked for. *)
Lemma select_dois_bounds_run :
  select_dois Demo.three_citations 1 = Ok [VStr "10.1/a"] /\
  exists all,
    citation_dois [ VDict [("doi", VStr "10.1/a"); ("year", VInt 1949)];
                    VDict [("unstructured", VStr "Private communication")];
                    VDict [("doi", VStr "10.1/b")] ] = Ok all /\
    (exists rest, all = [VStr "10.1/a"] ++ rest) /\
    length [VStr "10.1/a"] <= 3.
Proof.
  split; [reflexivity|].
  destruct (SourceFacts.select_dois_bounds
              [ VDict [("doi", VStr "10.1/a"); ("year", VInt 1949)];
                VDict [("unstructured", VStr "Private communication")];
                VDict [("doi", VStr "10.1/b")] ] 1 [VStr "10.1/a"] eq_refl)
    as [all [Hall [Hprefix [Hlen _]]]].
  exists all. auto.
Defined.

End MoreRuns.
